(** * Express JWT authentication and notes API

    A shallow embedding of [src/index.ts] and [src/models/Users.ts]:
    the token helpers [signToken] and [verifyToken], the
    [authenticateToken] middleware, the route handlers, and the part
    of the Sequelize model [User] the handlers rely on.

    JavaScript objects (request bodies, token payloads, table rows,
    JSON responses) are finite maps from member names to scalar
    values; an absent member stands for [undefined] or SQL NULL.
    A handler is a function from the request and the database to an
    outcome and the database afterwards. *)

From Stdlib Require Import Ascii.
From stdpp Require Import gmap strings list fin_maps pretty.

Open Scope Z_scope.
Open Scope string_scope.

(** ** Values and objects *)

(** Scalar members of a JSON object: numbers and strings. *)
Inductive val :=
  | VNum (n : Z)
  | VStr (s : string).

#[global] Instance val_eq_dec : EqDecision val.
Proof. solve_decision. Defined.

Abbreviation obj := (gmap string val).

(** JavaScript truthiness of a string ([!token] is [negb (truthy token)]). *)
Definition truthy (s : option string) : bool :=
  match s with
  | None => false
  | Some s => negb (bool_decide (s = ""))
  end.

(** ** Exceptions *)

(** The result of a call that may throw. *)
Inductive result (A : Type) :=
  | Ok (a : A)
  | Throw (e : string).
Arguments Ok {A} a.
Arguments Throw {A} e.

Definition bind {A B} (r : result A) (k : A → result B) : result B :=
  match r with
  | Ok a => k a
  | Throw e => Throw e
  end.

(** ** HTTP responses *)

Inductive payload :=
  | Json (o : obj)
  | JsonList (l : list obj)
  | Text (s : string).

Record response := Response { status : Z; body : payload }.

(** [res.sendStatus(code)], for the codes the source sends: 401 and
    403 go out with their reason phrase as body, 204 without a body. *)
Definition sendStatus (code : Z) : response :=
  Response code
    (Text (if decide (code = 401) then "Unauthorized"
           else if decide (code = 403) then "Forbidden"
           else "")).

(** [res.status(code).json({ error: msg })]. *)
Definition json_error (code : Z) (msg : string) : response :=
  Response code (Json {[ "error" := VStr msg ]}).

(** What becomes of an [async] handler: it sends a response, or its
    promise rejects with nothing sent. *)
Inductive outcome :=
  | Responded (r : response)
  | Rejected (e : string).

(** ** Texts as the database reads them *)

Fixpoint chars (s : string) : list ascii :=
  match s with
  | EmptyString => []
  | String c s' => c :: chars s'
  end.

Fixpoint unchars (l : list ascii) : string :=
  match l with
  | [] => EmptyString
  | c :: l' => String c (unchars l')
  end.

(** A byte that continues a character of a UTF-8 text. *)
Definition continuation (c : ascii) : bool :=
  (128 <=? N_of_ascii c)%N && (N_of_ascii c <? 192)%N.

(** The text after the bytes that continue a character. *)
Fixpoint skip_continuation (s : list ascii) : list ascii :=
  match s with
  | [] => []
  | c :: s' => if continuation c then skip_continuation s' else s
  end.

(** The number of characters of a text. *)
Definition char_length (s : list ascii) : nat :=
  length (filter (λ c, continuation c = false) s).

(** The first [n] characters of a text, and the rest. *)
Fixpoint split_chars (n : nat) (s : list ascii) : list ascii * list ascii :=
  match s with
  | [] => ([], [])
  | c :: s' =>
      if continuation c then
        let '(a, b) := split_chars n s' in (c :: a, b)
      else
        match n with
        | O => ([], s)
        | S n' => let '(a, b) := split_chars n' s' in (c :: a, b)
        end
  end.

(** LIKE patterns of PostgreSQL: [%] matches any run of characters,
    [_] any single character, and a backslash quotes the character
    after it (a pattern that ends in a lone backslash is an error in
    PostgreSQL; it matches nothing here). *)
Fixpoint like (p s : list ascii) : bool :=
  match p with
  | [] => match s with [] => true | _ => false end
  | c :: p' =>
      if decide (c = "%"%char) then
        (fix star (s : list ascii) : bool :=
           like p' s || match s with [] => false | _ :: s' => star s' end) s
      else if decide (c = "_"%char) then
        match s with [] => false | _ :: s' => like p' (skip_continuation s') end
      else if decide (c = "\"%char) then
        match p' with
        | [] => false
        | q :: p'' =>
            match s with
            | [] => false
            | x :: s' => bool_decide (q = x) && like p'' s'
            end
        end
      else
        match s with
        | [] => false
        | x :: s' => bool_decide (c = x) && like p' s'
        end
  end.

(** A text as Sequelize writes it into a query for PostgreSQL: each
    NUL character becomes a backslash and a zero. *)
Fixpoint sql_chars (s : list ascii) : list ascii :=
  match s with
  | [] => []
  | c :: s' =>
      if decide (c = "000"%char) then "\"%char :: "0"%char :: sql_chars s'
      else c :: sql_chars s'
  end.

Definition sql_text (s : string) : string := unchars (sql_chars (chars s)).

(** A text without the NUL character. *)
Definition clean (s : string) : Prop := "000"%char ∉ chars s.

(** ** Integers as the database reads them *)

Definition blank (c : ascii) : bool :=
  bool_decide (c = " "%char) || ((9 <=? N_of_ascii c)%N && (N_of_ascii c <=? 13)%N).

Definition digit (c : ascii) : option Z :=
  if (48 <=? N_of_ascii c)%N && (N_of_ascii c <=? 57)%N
  then Some (Z.of_N (N_of_ascii c) - 48)
  else None.

(** The digits of a numeral, then blanks to the end. *)
Fixpoint digits (acc : Z) (s : list ascii) : option Z :=
  match s with
  | [] => Some acc
  | c :: s' =>
      match digit c with
      | Some d => digits (10 * acc + d) s'
      | None => if forallb blank s then Some acc else None
      end
  end.

Definition unsigned (s : list ascii) : option Z :=
  match s with
  | [] => None
  | c :: _ =>
      match digit c with
      | Some _ => digits 0 s
      | None => None
      end
  end.

Fixpoint numeral (s : list ascii) : option Z :=
  match s with
  | [] => None
  | c :: s' =>
      if blank c then numeral s'
      else if decide (c = "-"%char) then Z.opp <$> unsigned s'
      else if decide (c = "+"%char) then unsigned s'
      else unsigned s
  end.

(** The range of the type INTEGER. *)
Definition int4 (n : Z) : bool :=
  ((-2147483648 <=? n) && (n <=? 2147483647))%Z.

(** A text read at the type INTEGER: blanks, a sign, decimal digits,
    blanks, within the range. *)
Definition int4_of_string (s : string) : option Z :=
  match numeral (chars s) with
  | Some n => if int4 n then Some n else None
  | None => None
  end.

(** A value compared with an INTEGER column: a number as it is, a
    text read as an integer. *)
Definition to_integer (v : val) : result Z :=
  match v with
  | VNum n => Ok n
  | VStr s =>
      match int4_of_string s with
      | Some n => Ok n
      | None => Throw "invalid input syntax for type integer"
      end
  end.

(** A value stored in an INTEGER column. *)
Definition store_integer (v : val) : result Z :=
  bind (to_integer v) (λ n,
    if int4 n then Ok n else Throw "integer out of range").

(** A text stored in a VARCHAR([n]) column: it has no NUL and at
    most [n] characters, or only blanks beyond them, which are cut. *)
Definition store_text (n : nat) (s : string) : result string :=
  if bool_decide ("000"%char ∈ chars s)
  then Throw "invalid byte sequence for encoding UTF8: 0x00"
  else if bool_decide (char_length (chars s) ≤ n)%nat then Ok s
  else
    let '(a, b) := split_chars n (chars s) in
    if forallb (λ c, bool_decide (c = " "%char)) b then Ok (unchars a)
    else Throw "value too long for type character varying".

(** ** The database behind the [User] model *)

(** A row of table "Users" maps column names to values; a column that
    is absent from the map is NULL.  [fault], when set, is the error
    every query fails with (connection lost, missing column, ...). *)
Record db := Db {
  rows : list obj;
  next_id : Z;
  fault : option string
}.

(** The types [User.init] gives the columns of the model; the type
    of any other column is the table's own. *)
Inductive coltype :=
  | Integer
  | Varchar (n : nat)
  | Date
  | Untyped.

Definition column_type (k : string) : coltype :=
  if bool_decide (k = "id") then Integer
  else if bool_decide (k ∈ ["username"; "email"; "password"]) then Varchar 128
  else if bool_decide (k ∈ ["createdAt"; "updatedAt"]) then Date
  else Untyped.

(** A condition on one column: equality with a value, or
    [{ [Op.like]: pattern }]. *)
Inductive cond :=
  | Eq (v : val)
  | Like (pattern : string).

(** A condition as the database reads it at the type of the column:
    a text against an INTEGER column is read as an integer, a number
    against a VARCHAR column has no comparison, a text goes into the
    query as [sql_text] writes it, and a date is a number of
    milliseconds (a text is not read as a date here).  Against a
    column that is not of the model the value is compared as it is. *)
Definition read_cond (k : string) (c : cond) : result cond :=
  match column_type k, c with
  | Integer, Eq v => bind (to_integer v) (λ n, Ok (Eq (VNum n)))
  | Integer, Like _ => Throw "operator does not exist: integer ~~ unknown"
  | Varchar _, Eq (VStr s) => Ok (Eq (VStr (sql_text s)))
  | Varchar _, Eq (VNum _) =>
      Throw "operator does not exist: character varying = integer"
  | Varchar _, Like pattern => Ok (Like (sql_text pattern))
  | Date, Eq (VNum n) => Ok c
  | Date, _ => Throw "invalid input syntax for type timestamp"
  | Untyped, _ => Ok c
  end.

(** A [where] option: a conjunction of conditions by column.  [None]
    is a member whose value is [undefined], on which Sequelize throws
    before it queries; a value that cannot be read at the type of
    its column makes the query fail. *)
Definition where_clause := list (string * option cond).

Fixpoint check_where (w : where_clause) : result (list (string * cond)) :=
  match w with
  | [] => Ok []
  | (k, None) :: _ => Throw ("WHERE parameter " ++ k ++ " has invalid undefined value")
  | (k, Some c) :: w' =>
      bind (read_cond k c) (λ c',
      bind (check_where w') (λ l, Ok ((k, c') :: l)))
  end.

(** A NULL column satisfies no condition; values are compared as
    they are, and LIKE applies to text. *)
Definition holds (c : cond) (x : option val) : bool :=
  match c with
  | Eq v => bool_decide (x = Some v)
  | Like pattern =>
      match x with
      | Some (VStr u) => like (chars pattern) (chars u)
      | _ => false
      end
  end.

Definition row_matches (w : list (string * cond)) (r : obj) : bool :=
  forallb (λ kc, holds kc.2 (r !! kc.1)) w.

(** A value as it is stored in a column: an integer in range, a
    text that fits (a number is stored as its decimal text), a date
    as a number of milliseconds. *)
Definition store_value (k : string) (v : val) : result val :=
  match column_type k with
  | Integer => bind (store_integer v) (λ n, Ok (VNum n))
  | Varchar n =>
      bind (store_text n (match v with VStr s => s | VNum z => pretty z end))
        (λ s, Ok (VStr s))
  | Date =>
      match v with
      | VNum _ => Ok v
      | VStr _ => Throw "invalid input syntax for type timestamp"
      end
  | Untyped => Ok v
  end.

(** The members of [vals] under the names [ks], as they are stored. *)
Fixpoint store_values (ks : list string) (vals : obj) : result obj :=
  match ks with
  | [] => Ok ∅
  | k :: ks' =>
      match vals !! k with
      | None => store_values ks' vals
      | Some v =>
          bind (store_value k v) (λ v',
          bind (store_values ks' vals) (λ o, Ok (<[k := v']> o)))
      end
  end.

(** ** The model [User] of [src/models/Users.ts] *)

Module User.

(** The attributes [User.init] declares, and the two timestamps
    Sequelize adds to a model.  Only these are selected, inserted
    and updated; any other column of the table is out of the
    model's reach. *)
Definition attributes : list string :=
  ["id"; "username"; "email"; "password"; "createdAt"; "updatedAt"].

(** The attributes declared [allowNull: false]. *)
Definition required : list string := ["username"; "email"; "password"].

(** Members of [values] that are attributes of the model. *)
Definition pick (values : obj) : obj :=
  filter (λ kv, kv.1 ∈ attributes) values.

Definition hits (w : list (string * cond)) (l : list obj) : list obj :=
  filter (λ r, row_matches w r) l.

Definition ids (l : list obj) : list (option val) := (λ r, r !! "id") <$> l.

(** [User.findAll({ where })]. *)
Definition findAll (w : where_clause) (d : db) : result (list obj) :=
  bind (check_where w) (λ w',
    match fault d with
    | Some e => Throw e
    | None => Ok (pick <$> hits w' (rows d))
    end).

(** [User.findOne({ where })]: the first row found, or [null]. *)
Definition findOne (w : where_clause) (d : db) : result (option obj) :=
  bind (findAll w d) (λ l, Ok (head l)).

(** [User.create(values)]: members that are not attributes are
    dropped, the [allowNull: false] attributes are validated, the
    values are stored at the types of their columns, the primary key
    is the given [id] or the next of the sequence, and the row is
    inserted unless its key is taken.  The instance answered is the
    row as it is stored. *)
Definition create (values : obj) (now : Z) (d : db) : result obj * db :=
  let vals := pick values in
  if bool_decide (Forall (λ k, is_Some (vals !! k)) required) then
    match fault d with
    | Some e => (Throw e, d)
    | None =>
        match store_values attributes
                (<["updatedAt" := VNum now]>
                   (<["createdAt" := default (VNum now) (vals !! "createdAt")]>
                      vals)) with
        | Throw e => (Throw e, d)
        | Ok given =>
            let key := default (VNum (next_id d)) (given !! "id") in
            let seq :=
              match given !! "id" with
              | Some _ => next_id d
              | None => next_id d + 1
              end in
            let row := <["id" := key]> given in
            if bool_decide (Some key ∈ ids (rows d))
            then (Throw "Validation error", Db (rows d) seq None)
            else (Ok row, Db (rows d ++ [row]) seq None)
        end
    end
  else (Throw "notNull Violation", d).

(** [User.update(values, { where })]: when [values] sets no
    attribute but [updatedAt] nothing is sent and the count is 0;
    otherwise the attributes among [values] and [updatedAt] are set,
    at the types of their columns, on every row found, the rows set
    come after the others, and their count is returned. *)
Definition update (values : obj) (w : where_clause) (now : Z) (d : db)
  : result Z * db :=
  if bool_decide (delete "updatedAt" (pick values) = ∅) then (Ok 0, d)
  else
    match check_where w with
    | Throw e => (Throw e, d)
    | Ok w' =>
        match fault d with
        | Some e => (Throw e, d)
        | None =>
            match store_values attributes
                    (<["updatedAt" := VNum now]> (pick values)) with
            | Throw e => (Throw e, d)
            | Ok vals =>
                let rows' :=
                  (filter (λ r, ¬ row_matches w' r) (rows d)
                   ++ ((λ r, vals ∪ r) <$> hits w' (rows d)))%list in
                if bool_decide (is_Some (vals !! "id") ∧ ¬ NoDup (ids rows'))
                then (Throw "Validation error", d)
                else (Ok (Z.of_nat (length (hits w' (rows d)))),
                      Db rows' (next_id d) None)
            end
        end
    end.

(** [User.destroy({ where })]: deletes the rows found and returns
    their count. *)
Definition destroy (w : where_clause) (d : db) : result Z * db :=
  match check_where w with
  | Throw e => (Throw e, d)
  | Ok w' =>
      match fault d with
      | Some e => (Throw e, d)
      | None =>
          (Ok (Z.of_nat (length (hits w' (rows d)))),
           Db (filter (λ r, ¬ row_matches w' r) (rows d)) (next_id d) None)
      end
  end.

(** The instance method [addSharedUser]. *)
Definition addSharedUser (note userToShareWith : obj) : result unit :=
  Throw "Method not implemented.".

End User.
(** ** The [jsonwebtoken] library *)

(** A decoded token: the two encoded segments the signature covers,
    the algorithm named by the header, the payload, and the
    signature. *)
Record jws := Jws {
  signed : string;
  alg : string;
  claims : obj;
  signature : string
}.

(** What the library computes from bytes: the signature of an input
    under an algorithm and a key, the encoding of a header and a
    payload into the first two segments of a token, and the decoding
    of a token. *)
Class JwtLib := {
  mac : string → string → string → string;
  segments : string → obj → string;
  jws_decode : string → option jws
}.

(** A token [segments a c ++ "." ++ s] decodes to its parts. *)
Class JwtLaws (lib : JwtLib) := {
  decode_segments a c s :
    jws_decode (segments a c +:+ "." +:+ s) = Some (Jws (segments a c) a c s)
}.

Definition numeric (x : option val) : bool :=
  match x with
  | Some (VStr _) => false
  | _ => true
  end.

(** The claim [nbf] of a payload against the clock, in seconds. *)
Definition check_nbf (c : obj) (secs : Z) : result unit :=
  match c !! "nbf" with
  | Some (VStr _) => Throw "invalid nbf value"
  | Some (VNum n) =>
      if bool_decide (secs < n)%Z then Throw "jwt not active" else Ok ()
  | None => Ok ()
  end.

(** The claim [exp] of a payload against the clock, in seconds. *)
Definition check_exp (c : obj) (secs : Z) : result unit :=
  match c !! "exp" with
  | Some (VStr _) => Throw "invalid exp value"
  | Some (VNum x) =>
      if bool_decide (x ≤ secs)%Z then Throw "jwt expired" else Ok ()
  | None => Ok ()
  end.

(** [payload.iat || Math.floor(Date.now() / 1000)]. *)
Definition issue_time (data : obj) (now : Z) : val :=
  match data !! "iat" with
  | Some (VNum n) => if bool_decide (n = 0) then VNum (now `div` 1000) else VNum n
  | _ => VNum (now `div` 1000)
  end.

Section Jwt.
Context {lib : JwtLib}.

(** [jwt.sign(data, secret, { algorithm })] at time [now] (in
    milliseconds): the payload gets [payload.iat || now] as [iat],
    the time of issue in seconds unless it brings one that is not 0. *)
Definition jwt_sign (data : obj) (secret algorithm : string) (now : Z)
  : result string :=
  if bool_decide (secret = "") then Throw "secretOrPrivateKey must have a value"
  else if negb (numeric (data !! "iat") && numeric (data !! "exp")
                && numeric (data !! "nbf"))
  then Throw "invalid payload claim"
  else
    let c := <["iat" := issue_time data now]> data in
    let input := segments algorithm c in
    Ok (input +:+ "." +:+ mac algorithm secret input).

(** [jwt.verify(token, secret, { algorithms })] at time [now]. *)
Definition jwt_verify (token secret : string) (algorithms : list string)
    (now : Z) : result obj :=
  if bool_decide (token = "") then Throw "jwt must be provided"
  else
    match jws_decode token with
    | None => Throw "jwt malformed"
    | Some t =>
        if bool_decide (secret = "") then Throw "secret or public key must be provided"
        else if negb (bool_decide (alg t ∈ algorithms)) then Throw "invalid algorithm"
        else if negb (bool_decide (signature t = mac (alg t) secret (signed t)))
        then Throw "invalid signature"
        else
          bind (check_nbf (claims t) (now `div` 1000)) (λ _,
          bind (check_exp (claims t) (now `div` 1000)) (λ _,
          Ok (claims t)))
    end.
End Jwt.

(** ** Requests *)

(** The routes of the application; [:id] is the text of the path. *)
Inductive route :=
  | PostAuthLogin
  | GetNotes
  | GetNote (id : string)
  | PostNotes
  | PutNote (id : string)
  | DeleteNote (id : string)
  | PostNoteShare (id : string)
  | GetSearch
  | NoRoute.

(** A request: its route, the [Authorization] header, the JSON body,
    the query parameter [q], and the time it is served at. *)
Record request := Request {
  target : route;
  authorization : option string;
  reqbody : obj;
  q : option string;
  now : Z
}.

(** [{ ...o, k: v }]: the member [k] of the result is [v], also when
    [v] is [undefined]. *)
Definition spread_set (o : obj) (k : string) (v : option val) : obj :=
  match v with
  | Some v => <[k := v]> o
  | None => delete k o
  end.

(** ** [src/index.ts] *)

Section App.
Context {lib : JwtLib}.

(** The environment variable [JWT_SECRET], when it is set. *)
Variable JWT_SECRET : option string.

Definition secretKey : string :=
  if truthy JWT_SECRET then default "" JWT_SECRET else "yourSecretKey".

Definition signToken (data : obj) (now : Z) : result string :=
  jwt_sign data secretKey "HS256" now.

(** The decoded token, or [null] when [jwt.verify] throws. *)
Definition verifyToken (token : string) (now : Z) : option obj :=
  match jwt_verify token secretKey ["HS256"] now with
  | Ok decoded => Some decoded
  | Throw _ => None
  end.

(** The middleware: a response that ends the request, or the
    decoded token it stores in [req.user] before it calls [next]. *)
Definition authenticateToken (req : request) : response + obj :=
  if negb (truthy (authorization req)) then inl (sendStatus 401)
  else
    match verifyToken (default "" (authorization req)) (now req) with
    | None => inl (sendStatus 403)
    | Some decodedToken => inr decodedToken
    end.

(** [{ id: noteId, userId: req.user.userId }]. *)
Definition owned (noteId : string) (user : obj) : where_clause :=
  [("id", Some (Eq (VStr noteId))); ("userId", Eq <$> user !! "userId")].

(** POST /api/auth/login *)
Definition post_auth_login (req : request) (d : db) : outcome * db :=
  match User.findOne [("email", Eq <$> reqbody req !! "email");
                      ("password", Eq <$> reqbody req !! "password")] d with
  | Throw _ => (Responded (json_error 500 "Failed to log in"), d)
  | Ok None => (Responded (json_error 401 "Invalid credentials"), d)
  | Ok (Some user) =>
      match signToken (spread_set ∅ "userId" (user !! "id")) (now req) with
      | Throw _ => (Responded (json_error 500 "Failed to log in"), d)
      | Ok token =>
          (Responded (Response 200 (Json {[ "token" := VStr token ]})), d)
      end
  end.

(** GET /api/notes *)
Definition get_notes (req : request) (user : obj) (d : db) : outcome * db :=
  match User.findAll [("userId", Eq <$> user !! "userId")] d with
  | Throw _ => (Responded (json_error 500 "Failed to retrieve notes"), d)
  | Ok notes => (Responded (Response 200 (JsonList notes)), d)
  end.

(** GET /api/notes/:id *)
Definition get_note (noteId : string) (req : request) (user : obj) (d : db)
  : outcome * db :=
  match User.findOne (owned noteId user) d with
  | Throw _ => (Responded (json_error 500 "Failed to retrieve note"), d)
  | Ok None => (Responded (json_error 404 "Note not found"), d)
  | Ok (Some note) => (Responded (Response 200 (Json note)), d)
  end.

(** POST /api/notes *)
Definition post_notes (req : request) (user : obj) (d : db) : outcome * db :=
  match User.create (spread_set (reqbody req) "userId" (user !! "userId"))
          (now req) d with
  | (Throw _, d') =>
      (Responded (json_error 500 "Failed to create a new note"), d')
  | (Ok newNote, d') => (Responded (Response 201 (Json newNote)), d')
  end.

(** PUT /api/notes/:id *)
Definition put_note (noteId : string) (req : request) (user : obj) (d : db)
  : outcome * db :=
  match User.update (reqbody req) (owned noteId user) (now req) d with
  | (Throw _, d') => (Responded (json_error 500 "Failed to update note"), d')
  | (Ok updatedRowsCount, d') =>
      if bool_decide (updatedRowsCount = 0)
      then (Responded (json_error 404 "Note not found"), d')
      else (Responded (sendStatus 204), d')
  end.

(** DELETE /api/notes/:id *)
Definition delete_note (noteId : string) (req : request) (user : obj) (d : db)
  : outcome * db :=
  match User.destroy (owned noteId user) d with
  | (Throw _, d') => (Responded (json_error 500 "Failed to delete note"), d')
  | (Ok deletedRowsCount, d') =>
      if bool_decide (deletedRowsCount = 0)
      then (Responded (json_error 404 "Note not found"), d')
      else (Responded (sendStatus 204), d')
  end.

(** POST /api/notes/:id/share *)
Definition post_note_share (noteId : string) (req : request) (user : obj) (d : db)
  : outcome * db :=
  let failed := (Responded (json_error 500 "Failed to share the note"), d) in
  match User.findOne (owned noteId user) d with
  | Throw _ => failed
  | Ok None =>
      (Responded
         (json_error 404
            "Note not found or does not belong to the authenticated user"), d)
  | Ok (Some note) =>
      match User.findOne [("id", Eq <$> reqbody req !! "sharedWithUserId")] d with
      | Throw _ => failed
      | Ok None =>
          (Responded (json_error 404 "User to share with not found"), d)
      | Ok (Some userToShareWith) =>
          match User.addSharedUser note userToShareWith with
          | Throw _ => failed
          | Ok _ =>
              (Responded
                 (Response 200
                    (Json {[ "message" := VStr "Note shared successfully" ]})), d)
          end
      end
  end.

(** [{ id: user.id, username: user.username, email: user.email }]. *)
Definition public (user : obj) : obj :=
  spread_set
    (spread_set (spread_set ∅ "id" (user !! "id"))
       "username" (user !! "username"))
    "email" (user !! "email").

(** The pattern written as a template literal around [req.query.q]. *)
Definition search_pattern (query : option string) : string :=
  "%" +:+ default "undefined" query +:+ "%".

(** GET /api/search: the handler has no [try]. *)
Definition get_search (req : request) (user : obj) (d : db) : outcome * db :=
  match User.findAll [("username", Some (Like (search_pattern (q req))))] d with
  | Throw e => (Rejected e, d)
  | Ok users => (Responded (Response 200 (JsonList (public <$> users))), d)
  end.

(** The routes registered after the middleware; [user] is what the
    middleware stored in [req.user]. *)
Definition routed (r : route) (req : request) (user : obj) (d : db)
  : outcome * db :=
  match r with
  | GetNotes => get_notes req user d
  | GetNote id => get_note id req user d
  | PostNotes => post_notes req user d
  | PutNote id => put_note id req user d
  | DeleteNote id => delete_note id req user d
  | PostNoteShare id => post_note_share id req user d
  | GetSearch => get_search req user d
  | PostAuthLogin | NoRoute => (Responded (Response 404 (Text "Not Found")), d)
  end.

(** The application: the login route, then the middleware, then the
    routes registered after it. *)
Definition app (req : request) (d : db) : outcome * db :=
  match target req with
  | PostAuthLogin => post_auth_login req d
  | r =>
      match authenticateToken req with
      | inl res => (Responded res, d)
      | inr user => routed r req user d
      end
  end.

End App.
(** ** A library instance for the examples *)

(** Segments are written in binary, so that a token can be cut at its
    first dot; the signature spells out what it signs. *)
Module ExampleLib.

#[global] Instance val_countable : Countable val :=
  inj_countable'
    (λ v, match v with VNum n => inl n | VStr s => inr s end)
    (λ x, match x with inl n => VNum n | inr s => VStr s end)
    (λ v, match v with VNum _ => eq_refl | VStr _ => eq_refl end).

Fixpoint bits (p : positive) : string :=
  match p with
  | xH => ""
  | xO p' => String "0" (bits p')
  | xI p' => String "1" (bits p')
  end.

Fixpoint cut (s : string) : option (positive * string) :=
  match s with
  | EmptyString => None
  | String c s' =>
      if decide (c = "."%char) then Some (xH, s')
      else if decide (c = "0"%char)
      then (λ ps, (xO ps.1, ps.2)) <$> cut s'
      else if decide (c = "1"%char)
      then (λ ps, (xI ps.1, ps.2)) <$> cut s'
      else None
  end.

Definition example_decode (token : string) : option jws :=
  match cut token with
  | None => None
  | Some (p, s) =>
      match countable.decode p with
      | None => None
      | Some (a, c) => Some (Jws (bits p) a c s)
      end
  end.

#[global] Instance lib : JwtLib := {|
  mac a key input := a +:+ ":" +:+ key +:+ ":" +:+ input;
  segments a c := bits (encode (a, c));
  jws_decode := example_decode
|}.

End ExampleLib.

(** ** Vocabulary of the properties *)

(** The primary key: no two rows share an [id], and no [id] is NULL
    twice. *)
Definition pk_ok (d : db) : Prop := NoDup (User.ids (rows d)).

(** [q] is a prefix of [s]. *)
Fixpoint starts_with (q s : list ascii) : bool :=
  match q, s with
  | [], _ => true
  | _ :: _, [] => false
  | c :: q', x :: s' => bool_decide (c = x) && starts_with q' s'
  end.

(** [s] contains [q] as a substring. *)
Fixpoint includes (q s : list ascii) : bool :=
  starts_with q s
  || match s with
     | [] => false
     | _ :: s' => includes q s'
     end.

(** The username of the row is a text that contains [query]. *)
Definition named (query : string) (r : obj) : bool :=
  match r !! "username" with
  | Some (VStr u) => includes (chars query) (chars u)
  | _ => false
  end.

(** The username of the row is LIKE [pattern]. *)
Definition username_like (pattern : string) (r : obj) : bool :=
  holds (Like pattern) (r !! "username").

(** A search string without the characters LIKE gives a meaning to. *)
Definition plain (s : string) : Prop :=
  Forall (λ c, c ≠ "%"%char ∧ c ≠ "_"%char ∧ c ≠ "\"%char) (chars s).

(** A text that a VARCHAR(128) column stores as it is: it has no NUL
    character and at most 128 characters. *)
Definition fits (s : string) : Prop :=
  clean s ∧ (char_length (chars s) ≤ 128)%nat.

Definition text_value (v : val) : bool :=
  match v with
  | VStr s => bool_decide (fits s)
  | VNum _ => false
  end.

(** The body sets texts only: the attributes of the model it names,
    [updatedAt] apart, are [username], [email] or [password], each
    with a text that fits, and there is one at least. *)
Definition sets_texts (reqbody : obj) : bool :=
  negb (bool_decide (delete "updatedAt" (User.pick reqbody) = ∅))
  && bool_decide
       (map_Forall (λ k v, k = "updatedAt" ∨ (k ∈ User.required ∧ text_value v))
          (User.pick reqbody)).

Definition is_ok {A} (r : result A) : bool :=
  match r with
  | Ok _ => true
  | Throw _ => false
  end.

(** The body can be stored: each attribute of the model it names,
    [updatedAt] apart, is the key or one of the three texts, with a
    value that its column takes. *)
Definition storable (reqbody : obj) : bool :=
  bool_decide
    (map_Forall
       (λ k v, k = "updatedAt" ∨ (k ≠ "createdAt" ∧ is_ok (store_value k v)))
       (User.pick reqbody)).

(** The payload the login signs for a record of key [id] at time
    [now]: [{ userId: id }] and the issue time in seconds. *)
Definition login_claims (id : option val) (now : Z) : obj :=
  <["iat" := VNum (now `div` 1000)]> (spread_set ∅ "userId" id).

(** ** Data of the examples *)

Definition john : obj :=
  {[ "id" := VNum 1; "username" := VStr "john";
     "email" := VStr "a@x.com"; "password" := VStr "p1" ]}.

Definition bob : obj :=
  {[ "id" := VNum 2; "username" := VStr "bob";
     "email" := VStr "b@x.com"; "password" := VStr "p2" ]}.

(** A row whose column [userId] names the subject 2. *)
Definition note5 : obj :=
  {[ "id" := VNum 5; "username" := VStr "groceries";
     "email" := VStr "b@x.com"; "password" := VStr "none";
     "userId" := VNum 2 ]}.

Definition store : db := Db [john; bob; note5] 6 None.

(** The decoded token of the subject [n]. *)
Definition subject (n : Z) : obj :=
  {[ "userId" := VNum n; "iat" := VNum 1700000000 ]}.

Definition request_to (r : route) (b : obj) : request :=
  Request r None b None 1700000000000.

(** The scenario of the login: the credential of [john], and the
    same email with another password. *)
Definition login_p1 : request :=
  request_to PostAuthLogin
    {[ "email" := VStr "a@x.com"; "password" := VStr "p1" ]}.

Definition login_wrong : request :=
  request_to PostAuthLogin
    {[ "email" := VStr "a@x.com"; "password" := VStr "p2" ]}.

(** The token the login of [john] answers with. *)
Definition john_token : string :=
  match (post_auth_login (lib := ExampleLib.lib) None login_p1 store).1 with
  | Responded (Response _ (Json o)) =>
      match o !! "token" with
      | Some (VStr token) => token
      | _ => ""
      end
  | _ => ""
  end.

(** The store when the database cannot be reached. *)
Definition offline : db :=
  Db [john; bob; note5] 6 (Some "connect ECONNREFUSED 127.0.0.1:5432").

(** A search for [query] that carries the token of [john]. *)
Definition search_for (query : string) : request :=
  Request GetSearch (Some john_token) ∅ (Some query) 1700000600000.

(** The subject 2 shares the row 5 with the user 1. *)
Definition share5 : request :=
  request_to (PostNoteShare "5") {[ "sharedWithUserId" := VNum 1 ]}.

(** The body of the README for a new note. *)
Definition readme_note : obj :=
  {[ "title" := VStr "New Note";
     "content" := VStr "This is the content of the note." ]}.

(** A body that also has the members the model requires, and names
    the subject 2 as owner. *)
Definition full_note : obj :=
  {[ "title" := VStr "New Note";
     "content" := VStr "This is the content of the note.";
     "username" := VStr "note"; "email" := VStr "n@x.com";
     "password" := VStr "x"; "userId" := VNum 2 ]}.

(** The row the model inserts for [full_note]. *)
Definition inserted : obj :=
  {[ "id" := VNum 6; "username" := VStr "note"; "email" := VStr "n@x.com";
     "password" := VStr "x"; "createdAt" := VNum 1700000000000;
     "updatedAt" := VNum 1700000000000 ]}.

(** A body with the members the model requires and no [id]. *)
Definition carol_body : obj :=
  {[ "username" := VStr "carol"; "email" := VStr "c@x.com";
     "password" := VStr "p3"; "title" := VStr "hello" ]}.

(** The login with the credential of [carol_body]. *)
Definition login_p3 : request :=
  request_to PostAuthLogin
    {[ "email" := VStr "c@x.com"; "password" := VStr "p3" ]}.

(** The row the model inserts for [carol_body]. *)
Definition carol_row : obj :=
  {[ "id" := VNum 6; "username" := VStr "carol"; "email" := VStr "c@x.com";
     "password" := VStr "p3"; "createdAt" := VNum 1700000000000;
     "updatedAt" := VNum 1700000000000 ]}.

(** The subject 2 renames the row 5. *)
Definition put5 : request :=
  request_to (PutNote "5") {[ "username" := VStr "milk" ]}.

(** The subject 1 sets the key of the row 5 to a text. *)
Definition put_abc : request :=
  request_to (PutNote "5") {[ "id" := VStr "abc" ]}.

(** A login without a password. *)
Definition login_no_password : request :=
  request_to PostAuthLogin {[ "email" := VStr "a@x.com" ]}.

(** A payload that expires at the second 1700000100. *)
Definition short_lived : obj :=
  {[ "userId" := VNum 1; "exp" := VNum 1700000100 ]}.

(** A request for the notes that carries [header]. *)
Definition notes_with (header : option string) : request :=
  Request GetNotes header ∅ None 1700000600000.

(** * Properties *)

(** ** Values stored *)

Lemma store_values_None ks (vals o : obj) k :
  store_values ks vals = Ok o → k ∉ ks ∨ vals !! k = None → o !! k = None.
Proof.
  revert o. induction ks as [|k' ks IH]; intros o H Hk; simpl in H.
  - by injection H as <-.
  - assert (k ∉ ks ∨ vals !! k = None) as Hk'.
    { destruct Hk as [Hk|Hk]; [left|by right]. intros ?. apply Hk. by right. }
    destruct (vals !! k') as [v|] eqn:Hv; [|by apply IH].
    destruct (store_value k' v) as [v'|]; [|done]. simpl in H.
    destruct (store_values ks vals) as [o'|]; [|done]. injection H as <-.
    rewrite lookup_insert_ne; [by apply IH|].
    intros ->. destruct Hk as [Hk|Hk]; [apply Hk; left|congruence].
Qed.

Lemma store_values_Some ks (vals o : obj) k v :
  store_values ks vals = Ok o → k ∈ ks → vals !! k = Some v →
  ∃ v', store_value k v = Ok v' ∧ o !! k = Some v'.
Proof.
  revert o. induction ks as [|k' ks IH]; intros o H Hk Hv; simpl in H.
  - by apply elem_of_nil in Hk.
  - destruct (decide (k = k')) as [->|Hne].
    + rewrite Hv in H. destruct (store_value k' v) as [v'|]; [|done].
      simpl in H. destruct (store_values ks vals) as [o'|]; [|done].
      injection H as <-. exists v'. by rewrite lookup_insert_eq.
    + apply elem_of_cons in Hk as [?|Hk]; [done|].
      destruct (vals !! k') as [w|]; [|by apply IH].
      destruct (store_value k' w) as [w'|]; [|done]. simpl in H.
      destruct (store_values ks vals) as [o'|]; [|done]. injection H as <-.
      destruct (IH o' eq_refl Hk Hv) as (v' & ? & ?). exists v'.
      by rewrite lookup_insert_ne.
Qed.

Lemma store_values_ok ks (vals : obj) :
  (∀ k v, k ∈ ks → vals !! k = Some v → ∃ v', store_value k v = Ok v') →
  ∃ o, store_values ks vals = Ok o.
Proof.
  induction ks as [|k ks IH]; intros H; simpl; [eauto|].
  destruct IH as [o Ho]. { intros k' v ? ?. apply H; [by right|done]. }
  destruct (vals !! k) as [v|] eqn:Hv; [|eauto].
  destruct (H k v) as [v' ->]; [left|done|]. simpl. rewrite Ho. eauto.
Qed.

Lemma pick_lookup (values : obj) k :
  User.pick values !! k =
    if bool_decide (k ∈ User.attributes) then values !! k else None.
Proof.
  unfold User.pick. case_bool_decide as Hk.
  - destruct (values !! k) as [v|] eqn:Hv.
    + by apply map_lookup_filter_Some.
    + apply map_lookup_filter_None. left. done.
  - apply map_lookup_filter_None. right. intros v _. exact Hk.
Qed.

(** A body that can be stored is stored with the time of the update. *)
Lemma storable_update (reqbody : obj) now :
  storable reqbody →
  ∃ vals, store_values User.attributes
            (<["updatedAt" := VNum now]> (User.pick reqbody)) = Ok vals.
Proof.
  unfold storable. rewrite bool_decide_spec. intros Hall.
  apply store_values_ok. intros k v _ Hv.
  destruct (decide (k = "updatedAt")) as [->|Hne].
  - rewrite lookup_insert_eq in Hv. injection Hv as <-. by eexists.
  - rewrite lookup_insert_ne in Hv by done.
    destruct (Hall k v Hv) as [?|[_ Hok]]; [done|].
    destruct (store_value k v); [eauto|done].
Qed.

(** ** Queries *)

Lemma check_where_owned noteId n (user : obj) s :
  int4_of_string noteId = Some n → user !! "userId" = Some s →
  check_where (owned noteId user) =
    Ok [("id", Eq (VNum n)); ("userId", Eq s)].
Proof.
  intros Hn Hs. unfold owned. rewrite Hs. simpl.
  change (read_cond "id" (Eq (VStr noteId)))
    with (bind (to_integer (VStr noteId)) (λ n, Ok (Eq (VNum n)))).
  simpl. rewrite Hn. reflexivity.
Qed.

Lemma row_matches_owned n s (r : obj) :
  row_matches [("id", Eq (VNum n)); ("userId", Eq s)] r ↔
  r !! "id" = Some (VNum n) ∧ r !! "userId" = Some s.
Proof.
  unfold row_matches; simpl.
  rewrite !andb_True, !bool_decide_spec.
  split; [intros (? & ? & _) | intros [? ?]]; auto.
Qed.

Lemma hits_nil w (l : list obj) :
  (∀ r, r ∈ l → ¬ row_matches w r) → User.hits w l = [].
Proof.
  intros H. unfold User.hits. induction l as [|r l IH]; [done|].
  rewrite filter_cons. destruct (decide (row_matches w r)) as [Hr|Hr].
  - destruct (H r); [left | done].
  - apply IH. intros r' Hr'. apply H. by right.
Qed.

Lemma hits_elem w (l : list obj) r :
  r ∈ User.hits w l ↔ r ∈ l ∧ row_matches w r.
Proof. unfold User.hits. rewrite list_elem_of_filter. tauto. Qed.

Lemma destroy_no_hit w (l : list obj) :
  User.hits w l = [] → filter (λ r, ¬ row_matches w r) l = l.
Proof.
  intros H. induction l as [|r l IH]; [done|].
  unfold User.hits in H. rewrite filter_cons in H.
  destruct (decide (row_matches w r)) as [Hr|Hr]; [done|].
  rewrite filter_cons, decide_True by done. by rewrite IH.
Qed.

Lemma hits_destroyed w (l : list obj) :
  User.hits w (filter (λ r, ¬ row_matches w r) l) = [].
Proof.
  apply hits_nil. intros r Hr. apply list_elem_of_filter in Hr. tauto.
Qed.

(** Under the primary key a row is determined by its [id]. *)
Lemma pk_unique (l : list obj) r1 r2 :
  NoDup (User.ids l) → r1 ∈ l → r2 ∈ l → r1 !! "id" = r2 !! "id" → r1 = r2.
Proof.
  unfold User.ids. induction l as [|r l IH]; intros Hnd H1 H2 Heq.
  - by apply elem_of_nil in H1.
  - rewrite fmap_cons in Hnd. apply NoDup_cons in Hnd as [Hr Hnd].
    apply elem_of_cons in H1 as [->|H1]; apply elem_of_cons in H2 as [->|H2].
    + done.
    + destruct Hr. rewrite Heq. apply list_elem_of_fmap. eauto.
    + destruct Hr. rewrite <- Heq. apply list_elem_of_fmap. eauto.
    + by apply IH.
Qed.

Lemma db_eta d : fault d = None → Db (rows d) (next_id d) None = d.
Proof. destruct d; simpl; by intros ->. Qed.

(** Deleting where nothing is found answers 404 and changes nothing. *)
Lemma delete_nothing noteId n req (user : obj) s d :
  fault d = None → user !! "userId" = Some s →
  int4_of_string noteId = Some n →
  User.hits [("id", Eq (VNum n)); ("userId", Eq s)] (rows d) = [] →
  delete_note noteId req user d = (Responded (json_error 404 "Note not found"), d).
Proof.
  intros Hf Hs Hn Hh. unfold delete_note, User.destroy.
  rewrite (check_where_owned _ _ _ _ Hn Hs), Hf.
  rewrite (destroy_no_hit _ _ Hh), Hh. simpl. by rewrite db_eta.
Qed.

(** Fetching where nothing is found answers 404. *)
Lemma get_nothing noteId n req (user : obj) s d :
  fault d = None → user !! "userId" = Some s →
  int4_of_string noteId = Some n →
  User.hits [("id", Eq (VNum n)); ("userId", Eq s)] (rows d) = [] →
  get_note noteId req user d = (Responded (json_error 404 "Note not found"), d).
Proof.
  intros Hf Hs Hn Hh. unfold get_note, User.findOne, User.findAll.
  rewrite (check_where_owned _ _ _ _ Hn Hs). simpl. by rewrite Hf, Hh.
Qed.

(** Updating where nothing is found, with a body that can be stored,
    answers 404 and changes nothing. *)
Lemma put_nothing noteId n req (user : obj) s d :
  fault d = None → pk_ok d → user !! "userId" = Some s →
  int4_of_string noteId = Some n → storable (reqbody req) →
  User.hits [("id", Eq (VNum n)); ("userId", Eq s)] (rows d) = [] →
  put_note noteId req user d = (Responded (json_error 404 "Note not found"), d).
Proof.
  intros Hf Hpk Hs Hn Hst Hh. unfold put_note, User.update.
  case_bool_decide; [done|].
  rewrite (check_where_owned _ _ _ _ Hn Hs), Hf.
  destruct (storable_update (reqbody req) (now req) Hst) as [vals ->].
  rewrite (destroy_no_hit _ _ Hh), Hh. simpl. rewrite app_nil_r.
  rewrite bool_decide_eq_false_2 by (intros [_ Hnd]; by apply Hnd).
  simpl. by rewrite db_eta.
Qed.

(** An update leaves in the store the rows it does not find. *)
Lemma put_keeps_others noteId req (user r : obj) d :
  r ∈ rows d →
  (∀ w', check_where (owned noteId user) = Ok w' → ¬ row_matches w' r) →
  r ∈ rows (put_note noteId req user d).2.
Proof.
  intros Hr Hno. unfold put_note, User.update.
  case_bool_decide; [done|].
  destruct (check_where (owned noteId user)) as [w'|]; [|done].
  specialize (Hno w' eq_refl). destruct (fault d); [done|].
  destruct (store_values _ _) as [vals|]; [|done].
  case_bool_decide; [done|].
  assert (r ∈ (filter (λ r0, ¬ row_matches w' r0) (rows d)
               ++ ((λ r0, vals ∪ r0) <$> User.hits w' (rows d)))%list) as Hin.
  { apply elem_of_app. left. by apply list_elem_of_filter. }
  by case_bool_decide.
Qed.

Lemma owned_other noteId (user r : obj) :
  r !! "userId" ≠ user !! "userId" →
  ∀ w', check_where (owned noteId user) = Ok w' → ¬ row_matches w' r.
Proof.
  intros Hown w' Hw Hm. unfold owned in Hw.
  destruct (user !! "userId") as [s|] eqn:Hs.
  - simpl in Hw. destruct (read_cond "id" _) as [c|]; [|done].
    simpl in Hw. injection Hw as <-.
    unfold row_matches in Hm. simpl in Hm.
    rewrite !andb_True in Hm. destruct Hm as (_ & Hm & _).
    apply bool_decide_spec in Hm. done.
  - simpl in Hw. by destruct (read_cond "id" _).
Qed.

(** C1, amended: a note [N] of the store whose owner is not the
    subject [s] of the request is not found by get and delete on its
    id (the text of the path, read as an INTEGER), nor by an update
    whose body can be stored: each answers 404 and leaves the store
    as it was.  Whatever the body, [N] is in the store after the
    update. *)
Theorem foreign_note_not_found (N user : obj) noteId n s req d :
  fault d = None → pk_ok d →
  N ∈ rows d → int4_of_string noteId = Some n → N !! "id" = Some (VNum n) →
  user !! "userId" = Some s → N !! "userId" ≠ Some s →
  get_note noteId req user d = (Responded (json_error 404 "Note not found"), d)
  ∧ delete_note noteId req user d = (Responded (json_error 404 "Note not found"), d)
  ∧ (storable (reqbody req) →
     put_note noteId req user d = (Responded (json_error 404 "Note not found"), d))
  ∧ N ∈ rows (put_note noteId req user d).2.
Proof.
  intros Hf Hpk HN Hn Hid Hs Hown.
  assert (User.hits [("id", Eq (VNum n)); ("userId", Eq s)] (rows d) = [])
    as Hh.
  { apply hits_nil. intros r Hr Hm.
    apply row_matches_owned in Hm as [Hrid Hrs].
    assert (r = N) as ->
      by (apply (pk_unique (rows d)); [exact Hpk|done|done|congruence]).
    done. }
  split; [by apply (get_nothing noteId n req user s)|].
  split; [by apply (delete_nothing noteId n req user s)|].
  split; [intros Hst; by apply (put_nothing noteId n req user s)|].
  apply put_keeps_others; [done|]. apply owned_other. by rewrite Hs.
Qed.

(** C9, amended: for an id that reads as an INTEGER, a delete that
    follows a delete of the same id by the same subject answers 404
    and leaves the store as the first delete left it; so does a
    delete of an id under which the subject owns no row. *)
Theorem delete_again_not_found noteId n req req' (user : obj) s d :
  fault d = None → user !! "userId" = Some s →
  int4_of_string noteId = Some n →
  delete_note noteId req' user (delete_note noteId req user d).2 =
    (Responded (json_error 404 "Note not found"),
     (delete_note noteId req user d).2)
  ∧ ((∀ r, r ∈ rows d →
        ¬ (r !! "id" = Some (VNum n) ∧ r !! "userId" = Some s)) →
     delete_note noteId req user d =
       (Responded (json_error 404 "Note not found"), d)).
Proof.
  intros Hf Hs Hn. split.
  - assert ((delete_note noteId req user d).2 =
            Db (filter (λ r, ¬ row_matches
                  [("id", Eq (VNum n)); ("userId", Eq s)] r) (rows d))
               (next_id d) None) as ->.
    { unfold delete_note, User.destroy.
      rewrite (check_where_owned _ _ _ _ Hn Hs), Hf.
      by destruct (bool_decide _). }
    apply (delete_nothing noteId n req' user s); [done..|].
    apply hits_destroyed.
  - intros Hno. apply (delete_nothing noteId n req user s); [done..|].
    apply hits_nil. intros r Hr Hm. apply (Hno r Hr).
    by apply row_matches_owned.
Qed.

Lemma store_pk_ok : pk_ok store.
Proof. apply (bool_decide_unpack _). vm_compute. exact I. Qed.

Lemma foreign_note_not_found_witness :
  get_note "5" put5 (subject 1) store =
    (Responded (json_error 404 "Note not found"), store)
  ∧ delete_note "5" put5 (subject 1) store =
    (Responded (json_error 404 "Note not found"), store)
  ∧ (storable (reqbody put5) →
     put_note "5" put5 (subject 1) store =
       (Responded (json_error 404 "Note not found"), store))
  ∧ note5 ∈ rows (put_note "5" put5 (subject 1) store).2.
Proof.
  refine (foreign_note_not_found note5 (subject 1) "5" 5 (VNum 1) put5 store
            _ store_pk_ok _ _ _ _ _);
    first [ vm_compute; reflexivity | discriminate
          | apply (bool_decide_unpack _); vm_compute; exact I ].
Defined.

(** C1 as written fails on an update whose body cannot be stored:
    the subject 1 sets the key of the row 5, which is not theirs, to
    the text "abc", and the answer is 500. *)
Lemma ill_typed_update_is_500 :
  ¬ (∀ (N user : obj) noteId n s req d,
       fault d = None → pk_ok d →
       N ∈ rows d → int4_of_string noteId = Some n →
       N !! "id" = Some (VNum n) →
       user !! "userId" = Some s → N !! "userId" ≠ Some s →
       put_note noteId req user d =
         (Responded (json_error 404 "Note not found"), d)).
Proof.
  intros H.
  specialize (H note5 (subject 1) "5" 5 (VNum 1) put_abc store).
  assert (put_note "5" put_abc (subject 1) store =
          (Responded (json_error 500 "Failed to update note"), store)) as H500
    by (vm_compute; reflexivity).
  rewrite H500 in H.
  discriminate H;
    first [ vm_compute; reflexivity | exact store_pk_ok | discriminate
          | apply (bool_decide_unpack _); vm_compute; exact I ].
Qed.

Lemma delete_again_not_found_witness :
  delete_note "5" put5 (subject 2) (delete_note "5" put5 (subject 2) store).2 =
    (Responded (json_error 404 "Note not found"),
     (delete_note "5" put5 (subject 2) store).2)
  ∧ ((∀ r, r ∈ rows store →
        ¬ (r !! "id" = Some (VNum 5) ∧ r !! "userId" = Some (VNum 2))) →
     delete_note "5" put5 (subject 2) store =
       (Responded (json_error 404 "Note not found"), store)).
Proof.
  refine (delete_again_not_found "5" 5 put5 put5 (subject 2) (VNum 2) store
            _ _ _); vm_compute; reflexivity.
Defined.

(** C9 as written fails on an id that is not an INTEGER: the subject
    1 owns no row, and the delete of the id 2147483648 answers 500. *)
Lemma delete_out_of_range_is_500 :
  ¬ (∀ noteId req (user : obj) s d,
       fault d = None → user !! "userId" = Some s →
       (∀ r, r ∈ rows d → r !! "userId" ≠ Some s) →
       delete_note noteId req user d =
         (Responded (json_error 404 "Note not found"), d)).
Proof.
  intros H.
  specialize (H "2147483648" put5 (subject 1) (VNum 1) store).
  assert (delete_note "2147483648" put5 (subject 1) store =
          (Responded (json_error 500 "Failed to delete note"), store)) as H500
    by (vm_compute; reflexivity).
  rewrite H500 in H.
  discriminate H; [reflexivity | reflexivity |].
  apply Forall_forall. apply (bool_decide_unpack _). vm_compute. exact I.
Qed.
(** ** Tokens *)

Section Tokens.
Context {lib : JwtLib}.
Variable JWT_SECRET : option string.

Lemma secretKey_nonempty : secretKey JWT_SECRET ≠ "".
Proof.
  unfold secretKey, truthy. destruct JWT_SECRET as [k|]; [|done].
  case_bool_decide; simpl; done.
Qed.

Lemma token_nonempty (a b : string) : a +:+ "." +:+ b ≠ "".
Proof. by destruct a. Qed.

Lemma login_claims_lookup id now k :
  k ≠ "iat" → k ≠ "userId" → login_claims id now !! k = None.
Proof.
  intros Hi Hu. unfold login_claims, spread_set.
  rewrite lookup_insert_ne by done.
  destruct id; [rewrite lookup_insert_ne by done|rewrite lookup_delete_ne by done];
    apply lookup_empty.
Qed.

Lemma login_claims_userId id now : login_claims id now !! "userId" = id.
Proof.
  unfold login_claims, spread_set. rewrite lookup_insert_ne by done.
  destruct id; [apply lookup_insert_eq|]. by rewrite lookup_delete_eq.
Qed.

Lemma signToken_login id now :
  signToken JWT_SECRET (spread_set ∅ "userId" id) now =
    Ok (segments "HS256" (login_claims id now) +:+ "." +:+
        mac "HS256" (secretKey JWT_SECRET)
          (segments "HS256" (login_claims id now))).
Proof.
  unfold signToken, jwt_sign.
  rewrite bool_decide_eq_false_2 by apply secretKey_nonempty.
  assert (∀ k, k ≠ "userId" → spread_set ∅ "userId" id !! k = None) as Hk.
  { intros k Hne. unfold spread_set.
    destruct id; [rewrite lookup_insert_ne by done|rewrite lookup_delete_ne by done];
      apply lookup_empty. }
  unfold login_claims, issue_time. rewrite !Hk by done. reflexivity.
Qed.

(** A token signed at login verifies at any time, to its payload. *)
Lemma verifyToken_login `{!JwtLaws lib} id now later :
  verifyToken JWT_SECRET
    (segments "HS256" (login_claims id now) +:+ "." +:+
     mac "HS256" (secretKey JWT_SECRET)
       (segments "HS256" (login_claims id now))) later =
  Some (login_claims id now).
Proof.
  unfold verifyToken, jwt_verify.
  rewrite bool_decide_eq_false_2 by apply token_nonempty.
  rewrite decode_segments. simpl.
  rewrite bool_decide_eq_false_2 by apply secretKey_nonempty.
  rewrite bool_decide_eq_true_2 by done.
  simpl. unfold check_nbf, check_exp.
  by rewrite !login_claims_lookup.
Qed.
End Tokens.

(** The first row found is a row that matches. *)
Lemma findOne_found w w' (d : db) r :
  check_where w = Ok w' → fault d = None → r ∈ rows d → row_matches w' r →
  ∃ r', r' ∈ rows d ∧ row_matches w' r' ∧ User.findOne w d = Ok (Some (User.pick r')).
Proof.
  intros Hw Hf Hr Hm. unfold User.findOne, User.findAll. rewrite Hw, Hf. simpl.
  destruct (User.hits w' (rows d)) as [|r' l] eqn:Hh.
  - assert (r ∈ User.hits w' (rows d)) as Hin by by apply hits_elem.
    rewrite Hh in Hin. by apply elem_of_nil in Hin.
  - assert (r' ∈ User.hits w' (rows d)) as Hin by (rewrite Hh; left).
    apply hits_elem in Hin as [? ?]. eauto.
Qed.

Lemma findOne_none w w' (d : db) :
  check_where w = Ok w' → fault d = None →
  (∀ r, r ∈ rows d → ¬ row_matches w' r) →
  User.findOne w d = Ok None.
Proof.
  intros Hw Hf Hno. unfold User.findOne, User.findAll. rewrite Hw, Hf. simpl.
  by rewrite hits_nil.
Qed.

Lemma row_matches_credential e p (r : obj) :
  row_matches [("email", Eq e); ("password", Eq p)] r ↔
  r !! "email" = Some e ∧ r !! "password" = Some p.
Proof.
  unfold row_matches; simpl.
  rewrite !andb_True, !bool_decide_spec.
  split; [intros (? & ? & _) | intros [? ?]]; auto.
Qed.

(** C2: when the lookup of the credential finds a record, the login
    answers with a token, and verifying that token, at any time,
    yields a payload whose [userId] is the [id] of the record. *)
Theorem issued_token_verifies `{!JwtLaws lib} JWT_SECRET req d (user : obj) later :
  User.findOne [("email", Eq <$> reqbody req !! "email");
                ("password", Eq <$> reqbody req !! "password")] d
    = Ok (Some user) →
  ∃ token decoded,
    post_auth_login JWT_SECRET req d =
      (Responded (Response 200 (Json {[ "token" := VStr token ]})), d)
    ∧ verifyToken JWT_SECRET token later = Some decoded
    ∧ decoded !! "userId" = user !! "id".
Proof.
  intros Hfind. unfold post_auth_login. rewrite Hfind, signToken_login.
  eexists _, _. split; [reflexivity|]. split.
  - apply verifyToken_login; done.
  - apply login_claims_userId.
Qed.


(** ** Texts in a query *)

Lemma unchars_chars s : unchars (chars s) = s.
Proof. induction s as [|c s IH]; simpl; [done|by rewrite IH]. Qed.

Lemma sql_text_clean s : clean s → sql_text s = s.
Proof.
  unfold clean, sql_text. intros Hc.
  assert (sql_chars (chars s) = chars s) as ->; [|apply unchars_chars].
  induction (chars s) as [|c l IH]; [done|]. simpl.
  destruct (decide (c = "000"%char)) as [->|_].
  - destruct Hc. left.
  - rewrite IH; [done|]. intros ?. apply Hc. by right.
Qed.

Lemma check_where_credential (e p : string) :
  clean e → clean p →
  check_where [("email", Some (Eq (VStr e))); ("password", Some (Eq (VStr p)))] =
    Ok [("email", Eq (VStr e)); ("password", Eq (VStr p))].
Proof.
  intros He Hp. simpl.
  change (read_cond "email" (Eq (VStr e))) with (Ok (A := cond) (Eq (VStr (sql_text e)))).
  change (read_cond "password" (Eq (VStr p))) with (Ok (A := cond) (Eq (VStr (sql_text p)))).
  simpl. by rewrite !sql_text_clean.
Qed.

(** C4, amended: for a login whose body has [email] and [password]
    as texts (without the NUL character), on a storage that answers:
    with a row that has both, the answer is 200 with the token that
    [signToken] makes of the [id] of such a row, which is not empty;
    without one (be the email that of a row with another password)
    the answer is 401 "Invalid credentials". *)
Theorem login_contract {lib : JwtLib} JWT_SECRET req d e p :
  fault d = None →
  reqbody req !! "email" = Some (VStr e) →
  reqbody req !! "password" = Some (VStr p) →
  clean e → clean p →
  ((∃ r, r ∈ rows d ∧ r !! "email" = Some (VStr e)
         ∧ r !! "password" = Some (VStr p)) →
   ∃ r token,
     r ∈ rows d ∧ r !! "email" = Some (VStr e) ∧ r !! "password" = Some (VStr p)
     ∧ signToken JWT_SECRET (spread_set ∅ "userId" (r !! "id")) (now req)
         = Ok token
     ∧ token ≠ ""
     ∧ post_auth_login JWT_SECRET req d =
         (Responded (Response 200 (Json {[ "token" := VStr token ]})), d))
  ∧ ((∀ r, r ∈ rows d → r !! "email" = Some (VStr e) →
           r !! "password" ≠ Some (VStr p)) →
     post_auth_login JWT_SECRET req d =
       (Responded (json_error 401 "Invalid credentials"), d)).
Proof.
  intros Hf He Hp Hce Hcp. unfold post_auth_login. rewrite He, Hp. simpl. split.
  - intros (r & Hr & Hre & Hrp).
    destruct (findOne_found
                [("email", Some (Eq (VStr e))); ("password", Some (Eq (VStr p)))]
                [("email", Eq (VStr e)); ("password", Eq (VStr p))] d r)
      as (r' & Hr' & Hm & ->);
      [by apply check_where_credential|done|done
      |by apply row_matches_credential|].
    apply row_matches_credential in Hm as [? ?].
    exists r'. eexists. rewrite pick_lookup. simpl.
    rewrite signToken_login. repeat split; try done. apply token_nonempty.
  - intros Hno.
    rewrite (findOne_none _ [("email", Eq (VStr e)); ("password", Eq (VStr p))]);
      [done|by apply check_where_credential|done|].
    intros r Hr Hm. apply row_matches_credential in Hm as [? ?].
    by apply (Hno r).
Qed.

(** ** The library instance of the examples obeys the law *)

Lemma cut_bits p s : ExampleLib.cut (ExampleLib.bits p +:+ "." +:+ s) = Some (p, s).
Proof.
  induction p as [p IH|p IH|]; simpl; [by rewrite IH..|done].
Qed.

#[global] Instance example_laws : JwtLaws ExampleLib.lib.
Proof.
  constructor. intros a c s. simpl. unfold ExampleLib.example_decode.
  by rewrite cut_bits, decode_encode.
Qed.

Lemma issued_token_verifies_witness :
  ∃ token decoded,
    post_auth_login (lib := ExampleLib.lib) None login_p1 store =
      (Responded (Response 200 (Json {[ "token" := VStr token ]})), store)
    ∧ verifyToken (lib := ExampleLib.lib) None token 1800000000000 = Some decoded
    ∧ decoded !! "userId" = User.pick john !! "id".
Proof.
  apply (issued_token_verifies (lib := ExampleLib.lib) None login_p1 store
           (User.pick john) 1800000000000).
  vm_compute. reflexivity.
Defined.

Lemma login_contract_witness :
  (∃ r token,
     r ∈ rows store ∧ r !! "email" = Some (VStr "a@x.com")
     ∧ r !! "password" = Some (VStr "p1")
     ∧ signToken (lib := ExampleLib.lib) None
         (spread_set ∅ "userId" (r !! "id")) (now login_p1) = Ok token
     ∧ token ≠ ""
     ∧ post_auth_login (lib := ExampleLib.lib) None login_p1 store =
         (Responded (Response 200 (Json {[ "token" := VStr token ]})), store))
  ∧ post_auth_login (lib := ExampleLib.lib) None login_wrong store =
      (Responded (json_error 401 "Invalid credentials"), store).
Proof.
  split.
  - refine (proj1 (login_contract (lib := ExampleLib.lib) None login_p1 store
                     "a@x.com" "p1" _ _ _ _ _) _);
      first [ vm_compute; reflexivity
            | apply (bool_decide_unpack _); vm_compute; exact I
            | idtac ].
    exists john. repeat split. apply (bool_decide_unpack _). vm_compute. exact I.
  - refine (proj2 (login_contract (lib := ExampleLib.lib) None login_wrong store
                     "a@x.com" "p2" _ _ _ _ _) _);
      first [ vm_compute; reflexivity
            | apply (bool_decide_unpack _); vm_compute; exact I
            | idtac ].
    intros r Hr. apply (bool_decide_unpack _).
    revert r Hr. apply Forall_forall. apply (bool_decide_unpack _).
    vm_compute. exact I.
Defined.

(** C4 as written fails on a login without a password: no row has
    the email with no password, and the answer is 500, not 401. *)
Lemma login_without_password_is_500 :
  ¬ (∀ (lib : JwtLib) JWT_SECRET req d,
       fault d = None →
       (∀ r, r ∈ rows d →
          ¬ (r !! "email" = reqbody req !! "email"
             ∧ r !! "password" = reqbody req !! "password")) →
       post_auth_login JWT_SECRET req d =
         (Responded (json_error 401 "Invalid credentials"), d)).
Proof.
  intros H. specialize (H ExampleLib.lib None login_no_password store).
  assert (post_auth_login (lib := ExampleLib.lib) None login_no_password store =
          (Responded (json_error 500 "Failed to log in"), store)) as H500
    by (vm_compute; reflexivity).
  rewrite H500 in H. discriminate H; [reflexivity|].
  apply Forall_forall. apply (bool_decide_unpack _). vm_compute. exact I.
Qed.
(** ** The middleware *)

Section Gate.
Context {lib : JwtLib}.
Variable JWT_SECRET : option string.

(** [verifyToken] answers [null] to the empty string, to a token
    that does not decode, to one whose header names another
    algorithm than HS256, and to one whose signature is not the
    HS256 signature of its segments under the secret. *)
Lemma verifyToken_rejects token now :
  token = ""
  ∨ jws_decode token = None
  ∨ (∃ t, jws_decode token = Some t
          ∧ (alg t ≠ "HS256"
             ∨ signature t ≠ mac "HS256" (secretKey JWT_SECRET) (signed t))) →
  verifyToken JWT_SECRET token now = None.
Proof.
  unfold verifyToken, jwt_verify.
  intros [->|[Hd|(t & Hd & Hbad)]]; [done|..].
  - case_bool_decide; [done|]. by rewrite Hd.
  - case_bool_decide; [done|]. rewrite Hd.
    case_bool_decide; [done|].
    destruct (decide (alg t = "HS256")) as [Ha|Ha].
    + destruct Hbad as [?|Hsig]; [done|].
      rewrite bool_decide_eq_true_2 by (rewrite Ha; constructor). simpl.
      rewrite Ha. by rewrite bool_decide_eq_false_2.
    + rewrite bool_decide_eq_false_2; [done|].
      intros Hin. apply list_elem_of_singleton in Hin. done.
Qed.
End Gate.

(** C3, amended: on every route but the login, a request without
    the header, or with an empty one, is answered 401; one whose
    header does not verify is answered 403; otherwise the decoded
    token is handed to the route.  [verifyToken] returns [null],
    and so leads to 403, for every token that does not decode, names
    another algorithm than HS256, or is not signed with the secret. *)
Theorem gate_contract {lib : JwtLib} JWT_SECRET req d :
  target req ≠ PostAuthLogin →
  (authorization req = None ∨ authorization req = Some "" →
   app JWT_SECRET req d = (Responded (sendStatus 401), d))
  ∧ (∀ token, authorization req = Some token → token ≠ "" →
       verifyToken JWT_SECRET token (now req) = None →
       app JWT_SECRET req d = (Responded (sendStatus 403), d))
  ∧ (∀ token user, authorization req = Some token → token ≠ "" →
       verifyToken JWT_SECRET token (now req) = Some user →
       authenticateToken JWT_SECRET req = inr user
       ∧ app JWT_SECRET req d = routed (target req) req user d)
  ∧ (∀ token, authorization req = Some token → token ≠ "" →
       jws_decode token = None
       ∨ (∃ t, jws_decode token = Some t
               ∧ (alg t ≠ "HS256"
                  ∨ signature t ≠ mac "HS256" (secretKey JWT_SECRET) (signed t))) →
       app JWT_SECRET req d = (Responded (sendStatus 403), d)).
Proof.
  intros Hroute.
  assert (∀ token, authorization req = Some token → token ≠ "" →
            verifyToken JWT_SECRET token (now req) = None →
            app JWT_SECRET req d = (Responded (sendStatus 403), d)) as H403.
  { intros token Ha Hne Hv. unfold app, authenticateToken, truthy.
    rewrite Ha. simpl. rewrite bool_decide_eq_false_2 by done. simpl.
    rewrite Hv. by destruct (target req). }
  split; [|split; [exact H403|split]].
  - intros Ha. unfold app, authenticateToken, truthy.
    destruct Ha as [-> | ->]; simpl; by destruct (target req).
  - intros token user Ha Hne Hv.
    assert (authenticateToken JWT_SECRET req = inr user) as Hgate.
    { unfold authenticateToken, truthy. rewrite Ha. simpl.
      rewrite bool_decide_eq_false_2 by done. simpl. by rewrite Hv. }
    split; [done|]. unfold app. rewrite Hgate. by destruct (target req).
  - intros token Ha Hne Hbad. apply (H403 token Ha Hne).
    apply verifyToken_rejects. by right.
Qed.

Lemma gate_contract_witness :
  app (lib := ExampleLib.lib) None (notes_with None) store =
    (Responded (sendStatus 401), store)
  ∧ app (lib := ExampleLib.lib) None (notes_with (Some "no.such.token")) store =
    (Responded (sendStatus 403), store)
  ∧ app (lib := ExampleLib.lib) None (notes_with (Some john_token)) store =
    get_notes (notes_with (Some john_token))
      (login_claims (Some (VNum 1)) 1700000000000) store.
Proof.
  split; [|split].
  - destruct (gate_contract (lib := ExampleLib.lib) None (notes_with None) store)
      as (H401 & _); [discriminate|].
    apply H401. by left.
  - destruct (gate_contract (lib := ExampleLib.lib) None
                (notes_with (Some "no.such.token")) store)
      as (_ & _ & _ & H403); [discriminate|].
    apply (H403 "no.such.token"); [reflexivity | discriminate | left; reflexivity].
  - destruct (gate_contract (lib := ExampleLib.lib) None
                (notes_with (Some john_token)) store)
      as (_ & _ & Hnext & _); [discriminate|].
    apply (Hnext john_token);
      [reflexivity | vm_compute; discriminate | vm_compute; reflexivity].
Defined.

(** C3 as written fails on a header that is present and empty: it
    does not verify, and the answer is 401, not 403. *)
Lemma empty_header_is_401 :
  ¬ (∀ (lib : JwtLib) JWT_SECRET req d token,
       target req ≠ PostAuthLogin →
       authorization req = Some token →
       verifyToken JWT_SECRET token (now req) = None →
       app JWT_SECRET req d = (Responded (sendStatus 403), d)).
Proof.
  intros H.
  specialize (H ExampleLib.lib None (notes_with (Some "")) store "").
  assert (app (lib := ExampleLib.lib) None (notes_with (Some "")) store =
          (Responded (sendStatus 401), store)) as H401 by reflexivity.
  rewrite H401 in H. discriminate H; [discriminate | reflexivity | reflexivity].
Qed.


(** ** Sharing *)

Lemma row_matches_id m (r : obj) :
  row_matches [("id", Eq (VNum m))] r ↔ r !! "id" = Some (VNum m).
Proof.
  unfold row_matches; simpl. rewrite andb_True, bool_decide_spec.
  split; [intros [? _] | intros ?]; auto.
Qed.

Lemma check_where_id t m :
  to_integer t = Ok m →
  check_where [("id", Some (Eq t))] = Ok [("id", Eq (VNum m))].
Proof.
  intros Ht. simpl.
  change (read_cond "id" (Eq t)) with (bind (to_integer t) (λ n, Ok (Eq (VNum n)))).
  by rewrite Ht.
Qed.

(** No share request is answered 200, and none changes the store. *)
Lemma share_never_succeeds noteId req (user : obj) d :
  (∀ b, (post_note_share noteId req user d).1 ≠ Responded (Response 200 b))
  ∧ (post_note_share noteId req user d).2 = d.
Proof.
  unfold post_note_share, User.addSharedUser.
  destruct (User.findOne (owned noteId user) d) as [[note|]|];
    [|by split..].
  destruct (User.findOne _ d) as [[target|]|]; by split.
Qed.

(** C7: when the subject owns a row under the id and the user to
    share with exists, the handler reaches [addSharedUser], which
    throws, and answers 500: nothing is shared. *)
Theorem share_always_fails noteId n req (user note other : obj) s t m d :
  fault d = None → user !! "userId" = Some s →
  int4_of_string noteId = Some n →
  note ∈ rows d → note !! "id" = Some (VNum n) → note !! "userId" = Some s →
  reqbody req !! "sharedWithUserId" = Some t → to_integer t = Ok m →
  other ∈ rows d → other !! "id" = Some (VNum m) →
  post_note_share noteId req user d =
    (Responded (json_error 500 "Failed to share the note"), d)
  ∧ ∀ n u, User.addSharedUser n u = Throw "Method not implemented.".
Proof.
  intros Hf Hs Hn Hnote Hnid Hnown Ht Hm Ho Hoid. split; [|done].
  unfold post_note_share.
  destruct (findOne_found (owned noteId user)
              [("id", Eq (VNum n)); ("userId", Eq s)] d note)
    as (n' & _ & _ & ->);
    [by apply check_where_owned | done | done | by apply row_matches_owned |].
  rewrite Ht. simpl.
  destruct (findOne_found [("id", Some (Eq t))] [("id", Eq (VNum m))] d other)
    as (o' & _ & _ & ->);
    [by apply check_where_id | done | done | by apply row_matches_id |].
  reflexivity.
Qed.

Lemma share_always_fails_witness :
  post_note_share "5" share5 (subject 2) store =
    (Responded (json_error 500 "Failed to share the note"), store)
  ∧ ∀ n u, User.addSharedUser n u = Throw "Method not implemented.".
Proof.
  refine (share_always_fails "5" 5 share5 (subject 2) note5 john (VNum 2)
            (VNum 1) 1 store _ _ _ _ _ _ _ _ _ _);
    first [ vm_compute; reflexivity
          | apply (bool_decide_unpack _); vm_compute; exact I ].
Defined.

(** ** Failures of the storage *)

(** X21: the handlers that have a [try] answer a failure of the
    storage with 500 and a message of their own, in which nothing of
    the failure appears; the store is as before.  For the update
    this is so when the body sets an attribute of the model: an
    update that sets none does not reach the storage. *)
Lemma storage_failure_is_500 {lib : JwtLib} JWT_SECRET noteId req (user : obj) d e :
  fault d = Some e →
  post_auth_login JWT_SECRET req d =
    (Responded (json_error 500 "Failed to log in"), d)
  ∧ get_notes req user d =
    (Responded (json_error 500 "Failed to retrieve notes"), d)
  ∧ get_note noteId req user d =
    (Responded (json_error 500 "Failed to retrieve note"), d)
  ∧ post_notes req user d =
    (Responded (json_error 500 "Failed to create a new note"), d)
  ∧ (delete "updatedAt" (User.pick (reqbody req)) ≠ ∅ →
     put_note noteId req user d =
       (Responded (json_error 500 "Failed to update note"), d))
  ∧ delete_note noteId req user d =
    (Responded (json_error 500 "Failed to delete note"), d)
  ∧ post_note_share noteId req user d =
    (Responded (json_error 500 "Failed to share the note"), d).
Proof.
  intros Hf.
  assert (∀ w, ∃ e', User.findAll w d = Throw e') as Hall.
  { intros w. unfold User.findAll. destruct (check_where w); simpl; [|eauto].
    rewrite Hf. eauto. }
  assert (∀ w, ∃ e', User.findOne w d = Throw e') as Hone.
  { intros w. unfold User.findOne. destruct (Hall w) as [e' ->]. simpl. eauto. }
  repeat split.
  - unfold post_auth_login.
    match goal with |- context [User.findOne ?w d] => by destruct (Hone w) as [e' ->] end.
  - unfold get_notes.
    match goal with |- context [User.findAll ?w d] => by destruct (Hall w) as [e' ->] end.
  - unfold get_note.
    match goal with |- context [User.findOne ?w d] => by destruct (Hone w) as [e' ->] end.
  - unfold post_notes, User.create. case_bool_decide; by rewrite ?Hf.
  - intros Hset. unfold put_note, User.update.
    rewrite bool_decide_eq_false_2 by done.
    destruct (check_where _); by rewrite ?Hf.
  - unfold delete_note, User.destroy. destruct (check_where _); by rewrite ?Hf.
  - unfold post_note_share.
    match goal with |- context [User.findOne ?w d] => by destruct (Hone w) as [e' ->] end.
Qed.

(** C6 fails on the search: its handler has no [try], and a failure
    of the storage leaves the request without a response. *)
Theorem search_failure_not_caught :
  app (lib := ExampleLib.lib) None (search_for "jo") offline =
    (Rejected "connect ECONNREFUSED 127.0.0.1:5432", offline).
Proof. vm_compute. reflexivity. Qed.

(** ** Search *)

Lemma like_percent p s :
  like ("%"%char :: p) s =
    like p s || match s with [] => false | _ :: s' => like ("%"%char :: p) s' end.
Proof. by destruct s. Qed.

Lemma like_literal c p s :
  c ≠ "%"%char → c ≠ "_"%char → c ≠ "\"%char →
  like (c :: p) s =
    match s with [] => false | x :: s' => bool_decide (c = x) && like p s' end.
Proof.
  intros H1 H2 H3. simpl.
  destruct (decide (c = "%"%char)); [done|].
  destruct (decide (c = "_"%char)); [done|].
  destruct (decide (c = "\"%char)); [done|].
  by destruct s.
Qed.

Lemma like_any s : like ["%"%char] s = true.
Proof.
  induction s as [|x s IH]; [done|].
  rewrite like_percent, IH. apply orb_true_r.
Qed.

(** A pattern of literal characters and a final [%] asks for a prefix. *)
Lemma like_prefix q s :
  Forall (λ c, c ≠ "%"%char ∧ c ≠ "_"%char ∧ c ≠ "\"%char) q →
  like (q ++ ["%"%char])%list s = starts_with q s.
Proof.
  intros Hq. revert s. induction Hq as [|c q (H1 & H2 & H3) _ IH]; intros s.
  - apply like_any.
  - rewrite <- app_comm_cons, like_literal by done.
    destruct s as [|x s]; [done|]. simpl. by rewrite IH.
Qed.

(** Between two [%] a literal pattern asks for a substring. *)
Lemma like_substring q s :
  Forall (λ c, c ≠ "%"%char ∧ c ≠ "_"%char ∧ c ≠ "\"%char) q →
  like ("%"%char :: q ++ ["%"%char])%list s = includes q s.
Proof.
  intros Hq. induction s as [|x s IH].
  - rewrite like_percent, like_prefix by done. by destruct q.
  - rewrite like_percent, like_prefix, IH by done. by destruct q.
Qed.

Lemma chars_app a b : chars (a +:+ b) = (chars a ++ chars b)%list.
Proof. induction a as [|c a IH]; simpl; [done|by rewrite IH]. Qed.

(** [includes] is containment: some prefix and suffix surround [q]. *)
Lemma starts_with_spec q s : starts_with q s ↔ ∃ b, s = (q ++ b)%list.
Proof.
  revert s. induction q as [|c q IH]; intros s; simpl.
  - split; [eauto|done].
  - destruct s as [|x s]; simpl.
    + split; [done|intros [b Hb]; discriminate].
    + rewrite andb_True, bool_decide_spec, IH. split.
      * intros [-> [b ->]]. eauto.
      * intros [b Hb]. injection Hb as -> ->. eauto.
Qed.

Lemma includes_spec q s : includes q s ↔ ∃ a b, s = (a ++ q ++ b)%list.
Proof.
  induction s as [|x s IH]; simpl; rewrite orb_True, starts_with_spec.
  - split.
    + intros [[b Hb]|[]]. by exists [], b.
    + intros (a & b & Hab). left. destruct a; [eauto|done].
  - rewrite IH. split.
    + intros [[b Hb]|(a & b & ->)]; [by exists [], b|by exists (x :: a), b].
    + intros (a & b & Hab). destruct a as [|y a]; [left; eauto|].
      right. injection Hab as -> ->. eauto.
Qed.

Lemma row_matches_username pattern (r : obj) :
  row_matches [("username", Like pattern)] r = username_like pattern r.
Proof. unfold row_matches, username_like. simpl. apply andb_true_r. Qed.

Lemma chars_search_pattern query :
  chars (search_pattern (Some query)) =
    ("%"%char :: chars query ++ ["%"%char])%list.
Proof.
  unfold search_pattern.
  change (chars ("%" +:+ default "undefined" (Some query) +:+ "%"))
    with ("%"%char :: chars (query +:+ "%")).
  by rewrite chars_app.
Qed.

Lemma search_plain query (r : obj) :
  plain query → username_like (search_pattern (Some query)) r = named query r.
Proof.
  intros Hq. unfold username_like, named, holds.
  destruct (r !! "username") as [[n|u]|]; [done| |done].
  rewrite chars_search_pattern. by apply like_substring.
Qed.

Lemma public_lookup (user : obj) k :
  public user !! k =
    if bool_decide (k ∈ ["id"; "username"; "email"]) then user !! k else None.
Proof.
  unfold public, spread_set.
  destruct (decide (k = "email")) as [->|He];
    [ destruct (user !! "email") eqn:E; rewrite ?lookup_insert_eq, ?lookup_delete_eq; done |].
  assert (∀ o : obj, match user !! "email" with
                     | Some v => <["email":=v]> o | None => delete "email" o
                     end !! k = o !! k) as ->.
  { intros o. destruct (user !! "email");
      [by rewrite lookup_insert_ne|by rewrite lookup_delete_ne]. }
  destruct (decide (k = "username")) as [->|Hu];
    [ destruct (user !! "username") eqn:E; rewrite ?lookup_insert_eq, ?lookup_delete_eq; done |].
  assert (∀ o : obj, match user !! "username" with
                     | Some v => <["username":=v]> o | None => delete "username" o
                     end !! k = o !! k) as ->.
  { intros o. destruct (user !! "username");
      [by rewrite lookup_insert_ne|by rewrite lookup_delete_ne]. }
  destruct (decide (k = "id")) as [->|Hi];
    [ destruct (user !! "id") eqn:E; rewrite ?lookup_insert_eq, ?lookup_delete_eq; done |].
  rewrite bool_decide_eq_false_2.
  - destruct (user !! "id");
      [rewrite lookup_insert_ne by done|rewrite lookup_delete_ne by done];
      apply lookup_empty.
  - rewrite !elem_of_cons, elem_of_nil. intros [?|[?|[?|[]]]]; done.
Qed.

Lemma hits_username pattern (l : list obj) :
  User.hits [("username", Like pattern)] l =
    filter (λ r, username_like pattern r) l.
Proof.
  unfold User.hits. apply list_filter_iff. intros r.
  by rewrite row_matches_username.
Qed.

(** C5 fails on a query that LIKE reads as a pattern: the handler
    puts the query between two [%] as it is, so the search for "_"
    answers with every row that has a username, none of which
    contains "_". *)
Theorem search_wildcard_not_escaped :
  app (lib := ExampleLib.lib) None (search_for "_") store =
    (Responded (Response 200 (JsonList
       [ {[ "id" := VNum 1; "username" := VStr "john";
            "email" := VStr "a@x.com" ]};
         {[ "id" := VNum 2; "username" := VStr "bob";
            "email" := VStr "b@x.com" ]};
         {[ "id" := VNum 5; "username" := VStr "groceries";
            "email" := VStr "b@x.com" ]} ])), store)
  ∧ filter (λ r, named "_" r) (rows store) = [].
Proof. split; vm_compute; reflexivity. Qed.

(** ** Creation *)

(** The handler hands [create] the subject as [userId], whatever the
    body says. *)
Lemma spread_overrides_body (reqbody user : obj) :
  spread_set reqbody "userId" (user !! "userId") !! "userId" = user !! "userId".
Proof.
  unfold spread_set. destruct (user !! "userId");
    [apply lookup_insert_eq|apply lookup_delete_eq].
Qed.

(** What [create] does when it inserts a row. *)
Lemma create_inserts values now d row d' :
  User.create values now d = (Ok row, d') →
  ∃ given,
    store_values User.attributes
      (<["updatedAt" := VNum now]>
         (<["createdAt" := default (VNum now) (User.pick values !! "createdAt")]>
            (User.pick values))) = Ok given
    ∧ row = <["id" := default (VNum (next_id d)) (given !! "id")]> given
    ∧ rows d' = (rows d ++ [row])%list
    ∧ next_id d' = match given !! "id" with
                   | Some _ => next_id d
                   | None => next_id d + 1
                   end
    ∧ fault d' = None ∧ fault d = None
    ∧ (row !! "id" ∉ User.ids (rows d))
    ∧ Forall (λ k, is_Some (User.pick values !! k)) User.required.
Proof.
  unfold User.create. intros Hc.
  case_bool_decide as Hreq; [|done]. destruct (fault d); [done|].
  destruct (store_values _ _) as [given|]; [|done].
  case_bool_decide as Hid; [done|]. injection Hc as <- <-. simpl.
  exists given. repeat split; try done. by rewrite lookup_insert_eq.
Qed.

(** A row that [create] inserts has the attributes of the model and
    nothing else. *)
Lemma create_row_attributes values now d row d' k :
  User.create values now d = (Ok row, d') →
  k ∉ User.attributes → row !! k = None.
Proof.
  intros Hc Hk. destruct (create_inserts _ _ _ _ _ Hc) as (given & Hg & -> & _).
  rewrite lookup_insert_ne.
  - apply (store_values_None _ _ _ _ Hg). by left.
  - intros <-. apply Hk. by apply (bool_decide_unpack _).
Qed.

(** What is created through the notes route is not a note: the
    record answered has no [title] and no [content], and the subject
    who created it does not find it under its id. *)
Lemma created_note_is_lost req req' (user : obj) s d note d' noteId n :
  user !! "userId" = Some s →
  post_notes req user d = (Responded (Response 201 (Json note)), d') →
  int4_of_string noteId = Some n → note !! "id" = Some (VNum n) →
  note !! "title" = None ∧ note !! "content" = None
  ∧ get_note noteId req' user d' = (Responded (json_error 404 "Note not found"), d').
Proof.
  intros Hs Hpost Hn Hid. unfold post_notes in Hpost.
  destruct (User.create _ (now req) d) as [[row|e] d1] eqn:Hc; [|done].
  injection Hpost as -> ->.
  destruct (create_inserts _ _ _ _ _ Hc)
    as (given & _ & _ & Hrows & _ & Hf' & Hf & Hfresh & _).
  split; [|split].
  - apply (create_row_attributes _ _ _ _ _ "title" Hc).
    by apply (bool_decide_unpack _).
  - apply (create_row_attributes _ _ _ _ _ "content" Hc).
    by apply (bool_decide_unpack _).
  - apply (get_nothing noteId n req' user s); [done..|].
    apply hits_nil. intros r Hr Hm.
    apply row_matches_owned in Hm as [Hrid Hrs].
    rewrite Hrows in Hr. apply elem_of_app in Hr as [Hr|Hr].
    + apply Hfresh. rewrite Hid, <- Hrid. unfold User.ids.
      apply list_elem_of_fmap. eauto.
    + apply list_elem_of_singleton in Hr as ->.
      rewrite (create_row_attributes _ _ _ _ _ "userId" Hc) in Hrs; [done|].
      by apply (bool_decide_unpack _).
Qed.

(** C8 fails: the body of the README is refused by the model, which
    requires [username], [email] and [password]; with these the
    record created has neither [title] nor [content], and fetching it
    by its id answers 404. *)
Theorem created_note_not_fetched :
  post_notes (request_to PostNotes readme_note) (subject 1) store =
    (Responded (json_error 500 "Failed to create a new note"), store)
  ∧ post_notes (request_to PostNotes full_note) (subject 1) store =
    (Responded (Response 201 (Json inserted)),
     Db [john; bob; note5; inserted] 7 None)
  ∧ inserted !! "title" = None ∧ inserted !! "content" = None
  ∧ get_note "6" (request_to (GetNote "6") ∅) (subject 1)
      (Db [john; bob; note5; inserted] 7 None) =
    (Responded (json_error 404 "Note not found"),
     Db [john; bob; note5; inserted] 7 None).
Proof. repeat split; vm_compute; reflexivity. Qed.

(** C10 fails: the handler does hand the subject to [create] as
    [userId], in place of the one of the body, but the model has no
    such attribute: the row inserted has no owner at all. *)
Theorem created_row_has_no_owner :
  spread_set full_note "userId" (subject 1 !! "userId") !! "userId" = Some (VNum 1)
  ∧ rows (post_notes (request_to PostNotes full_note) (subject 1) store).2 =
      [john; bob; note5; inserted]
  ∧ inserted !! "userId" = None.
Proof. repeat split; vm_compute; reflexivity. Qed.

(** ** The primary key is kept *)

Lemma create_pk values now d :
  pk_ok d → pk_ok (User.create values now d).2.
Proof.
  unfold pk_ok. intros Hpk.
  destruct (User.create values now d) as [[row|e] d'] eqn:Hc.
  - destruct (create_inserts _ _ _ _ _ Hc)
      as (given & _ & _ & Hrows & _ & _ & _ & Hfresh & _).
    simpl. rewrite Hrows. unfold User.ids in *. rewrite fmap_app.
    apply NoDup_app. split; [done|]. split; [|apply NoDup_singleton].
    intros x Hx Hx'. apply list_elem_of_singleton in Hx'. by subst x.
  - assert (rows d' = rows d) as Hsame; [|simpl; by rewrite Hsame].
    unfold User.create in Hc. case_bool_decide; [|by injection Hc as _ <-].
    destruct (fault d); [by injection Hc as _ <-|].
    destruct (store_values _ _); [|by injection Hc as _ <-].
    case_bool_decide; [by injection Hc as _ <-|done].
Qed.

Lemma update_pk values w now d :
  pk_ok d → pk_ok (User.update values w now d).2.
Proof.
  unfold pk_ok, User.update. intros Hpk.
  case_bool_decide; [done|].
  destruct (check_where w) as [w'|]; [|done]. destruct (fault d); [done|].
  destruct (store_values _ _) as [vals|]; [|done].
  case_bool_decide as Hdup; [done|]. simpl.
  destruct (decide (NoDup (User.ids
    (filter (λ r, ¬ row_matches w' r) (rows d)
     ++ ((λ r, vals ∪ r) <$> User.hits w' (rows d)))%list))) as [Hnd|Hnd];
    [done|].
  assert (vals !! "id" = None) as Hnone.
  { destruct (vals !! "id") eqn:E; [|done].
    destruct Hdup. split; [eauto|done]. }
  unfold User.ids in *. rewrite fmap_app, <- list_fmap_compose.
  erewrite (list_fmap_ext _ (λ r : obj, r !! "id") (User.hits w' (rows d))).
  - rewrite <- fmap_app.
    assert ((filter (λ r, ¬ row_matches w' r) (rows d)
             ++ User.hits w' (rows d))%list ≡ₚ rows d) as Hperm.
    { rewrite Permutation_app_comm. apply filter_app_complement. }
    by rewrite Hperm.
  - intros i r _. simpl. by rewrite lookup_union_r.
Qed.

Lemma destroy_pk w d : pk_ok d → pk_ok (User.destroy w d).2.
Proof.
  unfold pk_ok, User.destroy. intros Hpk.
  destruct (check_where w) as [w'|]; [|done]. destruct (fault d); [done|].
  simpl. unfold User.ids in *.
  apply (sublist_NoDup _ _ Hpk).
  apply fmap_sublist, sublist_filter.
Qed.

(** X22: whatever the request, the application keeps the primary
    key: no two rows of the store share an [id] afterwards. *)
Lemma app_keeps_pk {lib : JwtLib} JWT_SECRET req d :
  pk_ok d → pk_ok (app JWT_SECRET req d).2.
Proof.
  intros Hpk.
  assert (pk_ok (post_auth_login JWT_SECRET req d).2) as Hlogin.
  { unfold post_auth_login. destruct (User.findOne _ d) as [[u|]|]; [|done..].
    by destruct (signToken _ _ _). }
  unfold app. destruct (target req) eqn:Hr; [done|..];
    (destruct (authenticateToken JWT_SECRET req) as [res|user]; [done|]);
    simpl.
  - unfold get_notes. by destruct (User.findAll _ d).
  - unfold get_note. by destruct (User.findOne _ d) as [[u|]|].
  - unfold post_notes.
    pose proof (create_pk (spread_set (reqbody req) "userId" (user !! "userId"))
                  (now req) d Hpk) as H.
    by destruct (User.create _ _ d) as [[u|] d'].
  - unfold put_note.
    pose proof (update_pk (reqbody req) (owned id user) (now req) d Hpk) as H.
    destruct (User.update _ _ _ d) as [[n|] d']; [|done].
    by case_bool_decide.
  - unfold delete_note.
    pose proof (destroy_pk (owned id user) d Hpk) as H.
    destruct (User.destroy _ d) as [[n|] d']; [|done].
    by case_bool_decide.
  - by rewrite (proj2 (share_never_succeeds id req user d)).
  - unfold get_search. by destruct (User.findAll _ d).
  - done.
Qed.

(** ** The notes of a subject *)

Lemma row_matches_userId s (r : obj) :
  row_matches [("userId", Eq s)] r ↔ r !! "userId" = Some s.
Proof.
  unfold row_matches; simpl. rewrite andb_True, bool_decide_spec.
  split; [intros [? _] | intros ?]; auto.
Qed.

(** X1: the list of notes is the rows whose [userId] is the
    subject, in the order of the table, each with the attributes of
    the model; the store is as before. *)
Theorem notes_list_is_scoped req (user : obj) s d :
  fault d = None → user !! "userId" = Some s →
  get_notes req user d =
    (Responded (Response 200 (JsonList
       (User.pick <$> filter (λ r, r !! "userId" = Some s) (rows d)))), d).
Proof.
  intros Hf Hs. unfold get_notes, User.findAll. rewrite Hs.
  change (check_where [("userId", Eq <$> Some s)])
    with (Ok (A := list (string * cond)) [("userId", Eq s)]).
  simpl. rewrite Hf.
  do 5 f_equal. unfold User.hits. apply list_filter_iff. intros r.
  apply row_matches_userId.
Qed.

Lemma notes_list_is_scoped_witness :
  get_notes (request_to GetNotes ∅) (subject 2) store =
    (Responded (Response 200 (JsonList
       (User.pick <$> filter (λ r, r !! "userId" = Some (VNum 2)) (rows store)))),
     store).
Proof.
  refine (notes_list_is_scoped (request_to GetNotes ∅) (subject 2) (VNum 2) store
            _ _); vm_compute; reflexivity.
Defined.

(** The row a subject owns under an id is the only row found. *)
Lemma hits_owned (N : obj) n s d :
  pk_ok d → N ∈ rows d → N !! "id" = Some (VNum n) →
  N !! "userId" = Some s →
  ∀ r, r ∈ rows d →
    (row_matches [("id", Eq (VNum n)); ("userId", Eq s)] r ↔ r = N).
Proof.
  intros Hpk HN Hid Hown r Hr. rewrite row_matches_owned. split.
  - intros [Hrid _]. apply (pk_unique (rows d)); [exact Hpk|done..|congruence].
  - by intros ->.
Qed.

Lemma get_owned (N user : obj) noteId n s req d :
  fault d = None → pk_ok d →
  N ∈ rows d → int4_of_string noteId = Some n → N !! "id" = Some (VNum n) →
  N !! "userId" = Some s → user !! "userId" = Some s →
  get_note noteId req user d = (Responded (Response 200 (Json (User.pick N))), d).
Proof.
  intros Hf Hpk HN Hn Hid Hown Hs. unfold get_note.
  destruct (findOne_found (owned noteId user)
              [("id", Eq (VNum n)); ("userId", Eq s)] d N)
    as (r & Hr & Hm & ->);
    [by apply check_where_owned | done | done | by apply row_matches_owned |].
  apply (hits_owned N n s d Hpk HN Hid Hown r Hr) in Hm. by subst r.
Qed.

(** X2: the subject who owns the row under an id fetches it: 200
    with the attributes of the row, [password] among them. *)
Theorem owner_fetches_note (N user : obj) noteId n s req d :
  fault d = None → pk_ok d →
  N ∈ rows d → int4_of_string noteId = Some n → N !! "id" = Some (VNum n) →
  N !! "userId" = Some s → user !! "userId" = Some s →
  get_note noteId req user d = (Responded (Response 200 (Json (User.pick N))), d)
  ∧ User.pick N !! "password" = N !! "password"
  ∧ User.pick N !! "userId" = None.
Proof.
  intros Hf Hpk HN Hn Hid Hown Hs. split; [|split].
  - by apply (get_owned N user noteId n s).
  - by rewrite pick_lookup.
  - by rewrite pick_lookup.
Qed.

Lemma owner_fetches_note_witness :
  get_note "5" put5 (subject 2) store =
    (Responded (Response 200 (Json (User.pick note5))), store)
  ∧ User.pick note5 !! "password" = note5 !! "password"
  ∧ User.pick note5 !! "userId" = None.
Proof.
  refine (owner_fetches_note note5 (subject 2) "5" 5 (VNum 2) put5 store
            _ store_pk_ok _ _ _ _ _);
    first [ vm_compute; reflexivity
          | apply (bool_decide_unpack _); vm_compute; exact I ].
Defined.

Lemma hits_nonempty w (l : list obj) r :
  r ∈ l → row_matches w r → Z.of_nat (length (User.hits w l)) ≠ 0.
Proof.
  intros Hr Hm Hz.
  assert (r ∈ User.hits w l) as Hin by by apply hits_elem.
  destruct (User.hits w l); [by apply elem_of_nil in Hin|done].
Qed.

(** X3: the subject who owns the row under an id deletes it: 204,
    the row is gone, every other row stays, and the id is then not
    found. *)
Theorem owner_deletes_note (N user : obj) noteId n s req req' d :
  fault d = None → pk_ok d →
  N ∈ rows d → int4_of_string noteId = Some n → N !! "id" = Some (VNum n) →
  N !! "userId" = Some s → user !! "userId" = Some s →
  (delete_note noteId req user d).1 = Responded (sendStatus 204)
  ∧ (N ∉ rows (delete_note noteId req user d).2)
  ∧ (∀ r, r ∈ rows d → r ≠ N → r ∈ rows (delete_note noteId req user d).2)
  ∧ get_note noteId req' user (delete_note noteId req user d).2 =
      (Responded (json_error 404 "Note not found"),
       (delete_note noteId req user d).2).
Proof.
  intros Hf Hpk HN Hn Hid Hown Hs.
  pose proof (hits_owned N n s d Hpk HN Hid Hown) as Honly.
  assert (delete_note noteId req user d =
          (Responded (sendStatus 204),
           Db (filter (λ r, ¬ row_matches
                 [("id", Eq (VNum n)); ("userId", Eq s)] r) (rows d))
              (next_id d) None)) as ->.
  { unfold delete_note, User.destroy.
    rewrite (check_where_owned _ _ _ _ Hn Hs), Hf.
    rewrite bool_decide_eq_false_2; [done|].
    apply (hits_nonempty _ _ N); [done|]. by apply Honly. }
  simpl. split; [done|split; [|split]].
  - intros Hin. apply list_elem_of_filter in Hin as [Hno _].
    apply Hno. by apply Honly.
  - intros r Hr Hne. apply list_elem_of_filter. split; [|done].
    intros Hm. by apply Honly in Hm.
  - apply (get_nothing noteId n req' user s); [done..|].
    apply hits_destroyed.
Qed.

Lemma owner_deletes_note_witness :
  (delete_note "5" put5 (subject 2) store).1 = Responded (sendStatus 204)
  ∧ (note5 ∉ rows (delete_note "5" put5 (subject 2) store).2)
  ∧ (∀ r, r ∈ rows store → r ≠ note5 →
       r ∈ rows (delete_note "5" put5 (subject 2) store).2)
  ∧ get_note "5" put5 (subject 2) (delete_note "5" put5 (subject 2) store).2 =
      (Responded (json_error 404 "Note not found"),
       (delete_note "5" put5 (subject 2) store).2).
Proof.
  refine (owner_deletes_note note5 (subject 2) "5" 5 (VNum 2) put5 put5 store
            _ store_pk_ok _ _ _ _ _);
    first [ vm_compute; reflexivity
          | apply (bool_decide_unpack _); vm_compute; exact I ].
Defined.

(** X4: an update or a delete by a subject leaves in the store, as
    it was, every row whose [userId] is not the subject, whatever
    the id and the body. *)
Theorem foreign_rows_untouched noteId req (user r : obj) d :
  r ∈ rows d → r !! "userId" ≠ user !! "userId" →
  r ∈ rows (put_note noteId req user d).2
  ∧ r ∈ rows (delete_note noteId req user d).2.
Proof.
  intros Hr Hown.
  pose proof (owned_other noteId user r Hown) as Hno.
  split; [by apply put_keeps_others|].
  unfold delete_note, User.destroy.
  destruct (check_where (owned noteId user)) as [w'|]; [|done].
  specialize (Hno w' eq_refl). destruct (fault d); [done|].
  assert (r ∈ filter (λ r0, ¬ row_matches w' r0) (rows d)) as Hin
    by by apply list_elem_of_filter.
  by case_bool_decide.
Qed.

Lemma foreign_rows_untouched_witness :
  note5 ∈ rows (put_note "5" put5 (subject 1) store).2
  ∧ note5 ∈ rows (delete_note "5" put5 (subject 1) store).2.
Proof.
  refine (foreign_rows_untouched "5" put5 (subject 1) note5 store _ _);
    [apply (bool_decide_unpack _); vm_compute; exact I | discriminate].
Defined.

(** ** Updating texts *)

Lemma sets_texts_spec (reqbody : obj) :
  sets_texts reqbody →
  delete "updatedAt" (User.pick reqbody) ≠ ∅
  ∧ ∀ k v, User.pick reqbody !! k = Some v → k ≠ "updatedAt" →
      k ∈ User.required ∧ ∃ s, v = VStr s ∧ fits s.
Proof.
  unfold sets_texts. rewrite andb_True, negb_True, !bool_decide_spec.
  intros [Hne Hall]. split; [done|]. intros k v Hv Hk.
  destruct (Hall k v Hv) as [?|[Hreq Htext]]; [done|]. split; [done|].
  destruct v as [z|s]; [done|]. exists s. split; [done|].
  by apply bool_decide_spec in Htext.
Qed.

Lemma store_text_fits s : fits s → store_text 128 s = Ok s.
Proof.
  intros [Hc Hl]. unfold store_text.
  rewrite bool_decide_eq_false_2 by exact Hc.
  by rewrite bool_decide_eq_true_2.
Qed.

Lemma store_value_text k s :
  k ∈ User.required → fits s → store_value k (VStr s) = Ok (VStr s).
Proof.
  intros Hk Hs. unfold User.required in Hk.
  rewrite !elem_of_cons, elem_of_nil in Hk.
  destruct Hk as [->|[->|[->|[]]]]; unfold store_value;
    match goal with
    | |- context [column_type ?k] => change (column_type k) with (Varchar 128)
    end; cbv beta iota; by rewrite (store_text_fits s Hs).
Qed.

(** A body that sets texts is stored as it is, with the time. *)
Lemma sets_texts_stored (reqbody : obj) now :
  sets_texts reqbody →
  store_values User.attributes (<["updatedAt" := VNum now]> (User.pick reqbody))
    = Ok (<["updatedAt" := VNum now]> (User.pick reqbody)).
Proof.
  intros Hst. destruct (sets_texts_spec _ Hst) as [_ Hall].
  assert (∀ k v, (<["updatedAt" := VNum now]> (User.pick reqbody)) !! k = Some v →
                 k ∈ User.attributes ∧ store_value k v = Ok v) as Hval.
  { intros k v Hv. destruct (decide (k = "updatedAt")) as [->|Hne].
    - rewrite lookup_insert_eq in Hv. injection Hv as <-.
      split; [by apply (bool_decide_unpack _)|done].
    - rewrite lookup_insert_ne in Hv by done.
      destruct (Hall k v Hv Hne) as (Hreq & s & -> & Hs).
      split; [|by apply store_value_text].
      rewrite pick_lookup in Hv. by case_bool_decide. }
  destruct (store_values_ok User.attributes
              (<["updatedAt" := VNum now]> (User.pick reqbody))) as [o Ho].
  { intros k v _ Hv. destruct (Hval k v Hv) as [_ ->]. eauto. }
  rewrite Ho. f_equal. apply map_eq. intros k.
  destruct ((<["updatedAt" := VNum now]> (User.pick reqbody)) !! k) as [v|] eqn:Hv.
  - destruct (Hval k v Hv) as [Hk Hsv].
    destruct (store_values_Some _ _ _ _ _ Ho Hk Hv) as (v' & Hv' & ->).
    congruence.
  - apply (store_values_None _ _ _ _ Ho). by right.
Qed.

(** The rows found, when one row only satisfies the condition. *)
Lemma hits_single w (l : list obj) (N : obj) :
  NoDup (User.ids l) → N ∈ l → (∀ r, r ∈ l → (row_matches w r ↔ r = N)) →
  User.hits w l = [N].
Proof.
  unfold User.hits, User.ids. induction l as [|x l IH]; intros Hnd HN Honly.
  - by apply elem_of_nil in HN.
  - rewrite fmap_cons in Hnd. apply NoDup_cons in Hnd as [Hx Hnd].
    rewrite filter_cons.
    destruct (decide (x = N)) as [->|Hne].
    + rewrite decide_True by (apply Honly; [left|done]). f_equal.
      apply (hits_nil w l). intros r Hr Hm.
      apply Honly in Hm; [|by right]. subst r.
      apply Hx. apply list_elem_of_fmap. eauto.
    + rewrite decide_False.
      * apply IH; [done| |].
        -- apply elem_of_cons in HN as [?|?]; [congruence|done].
        -- intros r Hr. apply Honly. by right.
      * intros Hm. apply Honly in Hm; [done|left].
Qed.

(** What an update of texts by the owner of the row [N] leaves. *)
Lemma put_owned (N user : obj) noteId n s req d :
  fault d = None → pk_ok d →
  N ∈ rows d → int4_of_string noteId = Some n → N !! "id" = Some (VNum n) →
  N !! "userId" = Some s → user !! "userId" = Some s →
  sets_texts (reqbody req) →
  put_note noteId req user d =
    (Responded (sendStatus 204),
     Db (filter (λ r, ¬ row_matches [("id", Eq (VNum n)); ("userId", Eq s)] r)
           (rows d)
         ++ [<["updatedAt" := VNum (now req)]> (User.pick (reqbody req)) ∪ N])
        (next_id d) None).
Proof.
  intros Hf Hpk HN Hn Hid Hown Hs Hst.
  pose proof (hits_owned N n s d Hpk HN Hid Hown) as Honly.
  destruct (sets_texts_spec _ Hst) as [Hset Hall].
  unfold put_note, User.update.
  rewrite bool_decide_eq_false_2 by done.
  rewrite (check_where_owned _ _ _ _ Hn Hs), Hf, (sets_texts_stored _ _ Hst).
  rewrite (hits_single _ _ N Hpk HN Honly). simpl.
  rewrite bool_decide_eq_false_2; [done|].
  intros [[v Hv] _]. rewrite lookup_insert_ne in Hv by done.
  destruct (Hall "id" v Hv) as [Hreq _]; [done|].
  revert Hreq. by apply (bool_decide_unpack _).
Qed.

(** X5: the subject who owns the row under an id updates it with a
    body that sets texts: 204; in place of the row the store has it
    with the attributes of the body and the time as [updatedAt], its
    other columns ([userId] among them) as they were; every other
    row is as before, and no row is added. *)
Theorem owner_updates_note (N user : obj) noteId n s req d :
  fault d = None → pk_ok d →
  N ∈ rows d → int4_of_string noteId = Some n → N !! "id" = Some (VNum n) →
  N !! "userId" = Some s → user !! "userId" = Some s →
  sets_texts (reqbody req) →
  (put_note noteId req user d).1 = Responded (sendStatus 204)
  ∧ (∀ r, r ∈ rows (put_note noteId req user d).2 ↔
          r = <["updatedAt" := VNum (now req)]> (User.pick (reqbody req)) ∪ N
          ∨ (r ∈ rows d ∧ r ≠ N))
  ∧ (∀ k, k ∉ User.attributes →
       (<["updatedAt" := VNum (now req)]> (User.pick (reqbody req)) ∪ N) !! k
       = N !! k).
Proof.
  intros Hf Hpk HN Hn Hid Hown Hs Hst.
  pose proof (hits_owned N n s d Hpk HN Hid Hown) as Honly.
  rewrite (put_owned N user noteId n s req d) by done.
  split; [done|split].
  - intros r. simpl. rewrite elem_of_app, list_elem_of_singleton, list_elem_of_filter.
    split.
    + intros [[Hno Hr]|Hr]; [right|by left]. split; [done|].
      intros Heq. subst r. apply Hno. by apply Honly.
    + intros [Hr|[Hr Hne]]; [by right|left]. split; [|done].
      intros Hm. by apply Honly in Hm.
  - intros k Hk. apply lookup_union_r.
    rewrite lookup_insert_ne.
    + rewrite pick_lookup. by rewrite bool_decide_eq_false_2.
    + intros <-. apply Hk. by apply (bool_decide_unpack _).
Qed.

Lemma owner_updates_note_witness :
  (put_note "5" put5 (subject 2) store).1 = Responded (sendStatus 204)
  ∧ (∀ r, r ∈ rows (put_note "5" put5 (subject 2) store).2 ↔
          r = <["updatedAt" := VNum (now put5)]> (User.pick (reqbody put5)) ∪ note5
          ∨ (r ∈ rows store ∧ r ≠ note5))
  ∧ (∀ k, k ∉ User.attributes →
       (<["updatedAt" := VNum (now put5)]> (User.pick (reqbody put5)) ∪ note5) !! k
       = note5 !! k).
Proof.
  refine (owner_updates_note note5 (subject 2) "5" 5 (VNum 2) put5 store
            _ store_pk_ok _ _ _ _ _ _);
    first [ vm_compute; reflexivity
          | apply (bool_decide_unpack _); vm_compute; exact I
          | vm_compute; exact I ].
Defined.

(** X6: after such an update the subject fetches the row with the
    texts of the body in place of the old ones, the other attributes
    as they were, and the time of the update as [updatedAt]. *)
Theorem update_then_fetch (N user : obj) noteId n s req req' d :
  fault d = None → pk_ok d →
  N ∈ rows d → int4_of_string noteId = Some n → N !! "id" = Some (VNum n) →
  N !! "userId" = Some s → user !! "userId" = Some s →
  sets_texts (reqbody req) →
  ∃ note,
    get_note noteId req' user (put_note noteId req user d).2 =
      (Responded (Response 200 (Json note)), (put_note noteId req user d).2)
    ∧ note !! "updatedAt" = Some (VNum (now req))
    ∧ ∀ k, k ∈ User.attributes → k ≠ "updatedAt" →
        note !! k = match reqbody req !! k with
                    | Some v => Some v
                    | None => N !! k
                    end.
Proof.
  intros Hf Hpk HN Hn Hid Hown Hs Hst.
  destruct (sets_texts_spec _ Hst) as [_ Hall].
  pose proof (update_pk (reqbody req) (owned noteId user) (now req) d Hpk) as Hpk'.
  assert ((User.update (reqbody req) (owned noteId user) (now req) d).2 =
          (put_note noteId req user d).2) as Hsame.
  { unfold put_note. destruct (User.update _ _ _ d) as [[m|] d']; [|done].
    by case_bool_decide. }
  rewrite Hsame in Hpk'. clear Hsame.
  rewrite (put_owned N user noteId n s req d) in * by done. simpl in *.
  set (N' := <["updatedAt" := VNum (now req)]> (User.pick (reqbody req)) ∪ N).
  assert (∀ k, k ≠ "updatedAt" → User.pick (reqbody req) !! k = None →
               N' !! k = N !! k) as Hkeep.
  { intros k Hk Hnone. apply lookup_union_r. by rewrite lookup_insert_ne. }
  assert (User.pick (reqbody req) !! "id" = None) as Hnoid.
  { destruct (User.pick (reqbody req) !! "id") as [v|] eqn:Hv; [|done].
    destruct (Hall "id" v Hv) as [Hreq _]; [done|].
    revert Hreq. by apply (bool_decide_unpack _). }
  exists (User.pick N'). split; [|split].
  - apply (get_owned N' user noteId n s); [done|exact Hpk'| |done|..|done].
    + simpl. apply elem_of_app. right. by apply list_elem_of_singleton.
    + by rewrite Hkeep.
    + rewrite Hkeep; [done..|]. by rewrite pick_lookup.
  - rewrite pick_lookup. simpl. unfold N'.
    erewrite lookup_union_Some_l; [done|]. apply lookup_insert_eq.
  - intros k Hk Hne. rewrite pick_lookup, bool_decide_eq_true_2 by done.
    unfold N'. rewrite lookup_union, lookup_insert_ne by done.
    rewrite pick_lookup, bool_decide_eq_true_2 by done.
    destruct (reqbody req !! k), (N !! k); done.
Qed.

Lemma update_then_fetch_witness :
  ∃ note,
    get_note "5" put5 (subject 2) (put_note "5" put5 (subject 2) store).2 =
      (Responded (Response 200 (Json note)), (put_note "5" put5 (subject 2) store).2)
    ∧ note !! "updatedAt" = Some (VNum (now put5))
    ∧ ∀ k, k ∈ User.attributes → k ≠ "updatedAt" →
        note !! k = match reqbody put5 !! k with
                    | Some v => Some v
                    | None => note5 !! k
                    end.
Proof.
  refine (update_then_fetch note5 (subject 2) "5" 5 (VNum 2) put5 put5 store
            _ store_pk_ok _ _ _ _ _ _);
    first [ vm_compute; reflexivity
          | apply (bool_decide_unpack _); vm_compute; exact I
          | vm_compute; exact I ].
Defined.

(** X23: an update whose body names no attribute of the model is
    answered 404 without a query: whatever the id, the subject and
    the state of the storage, the store is as before. *)
Theorem update_without_attributes noteId req (user : obj) d :
  User.pick (reqbody req) = ∅ →
  put_note noteId req user d = (Responded (json_error 404 "Note not found"), d).
Proof.
  intros Hnone. unfold put_note, User.update. rewrite Hnone.
  by rewrite bool_decide_eq_true_2 by apply delete_empty.
Qed.

Lemma update_without_attributes_witness :
  put_note "5" (request_to (PutNote "5") readme_note) (subject 2) offline =
    (Responded (json_error 404 "Note not found"), offline).
Proof.
  refine (update_without_attributes "5" (request_to (PutNote "5") readme_note)
            (subject 2) offline _).
  vm_compute. reflexivity.
Defined.
(** ** Signing and verifying *)

Section SignVerify.
Context {lib : JwtLib}.
Variable JWT_SECRET : option string.

(** What [signToken] answers for a payload whose time claims are
    numbers. *)
Lemma signToken_ok (data : obj) now :
  numeric (data !! "iat") = true → numeric (data !! "exp") = true →
  numeric (data !! "nbf") = true →
  signToken JWT_SECRET data now =
    Ok (segments "HS256"
          (<["iat" := issue_time data now]> data)
        +:+ "." +:+
        mac "HS256" (secretKey JWT_SECRET)
          (segments "HS256"
             (<["iat" := issue_time data now]> data))).
Proof.
  intros Hi He Hn. unfold signToken, jwt_sign.
  rewrite bool_decide_eq_false_2 by apply secretKey_nonempty.
  by rewrite Hi, He, Hn.
Qed.

(** Verifying a token made of the segments of a payload and their
    signature under the secret comes down to the time claims. *)
Lemma verifyToken_signed `{!JwtLaws lib} (c : obj) later :
  verifyToken JWT_SECRET
    (segments "HS256" c +:+ "." +:+
     mac "HS256" (secretKey JWT_SECRET) (segments "HS256" c)) later =
  match bind (check_nbf c (later `div` 1000)) (λ _,
        bind (check_exp c (later `div` 1000)) (λ _, Ok c)) with
  | Ok decoded => Some decoded
  | Throw _ => None
  end.
Proof.
  unfold verifyToken, jwt_verify.
  rewrite bool_decide_eq_false_2 by apply token_nonempty.
  rewrite decode_segments. simpl.
  rewrite bool_decide_eq_false_2 by apply secretKey_nonempty.
  by rewrite bool_decide_eq_true_2 by done.
Qed.
End SignVerify.

(** X7: a payload without [exp] and [nbf] that is signed verifies
    at any time, to itself with [payload.iat || now] as [iat]: its
    own [iat] when it has one that is not 0, the issue time in
    seconds otherwise. *)
Theorem sign_verify_roundtrip `{!JwtLaws lib} JWT_SECRET (data : obj) now later :
  numeric (data !! "iat") = true →
  data !! "exp" = None → data !! "nbf" = None →
  ∃ token,
    signToken JWT_SECRET data now = Ok token
    ∧ verifyToken JWT_SECRET token later =
        Some (<["iat" := issue_time data now]> data).
Proof.
  intros Hi He Hn. eexists. split.
  - apply signToken_ok; [done|by rewrite He|by rewrite Hn].
  - rewrite verifyToken_signed by done. unfold check_nbf, check_exp.
    rewrite !lookup_insert_ne by done. by rewrite He, Hn.
Qed.

Lemma sign_verify_roundtrip_witness :
  ∃ token,
    signToken (lib := ExampleLib.lib) (Some "s3cret") (subject 7) 1700000000000
      = Ok token
    ∧ verifyToken (lib := ExampleLib.lib) (Some "s3cret") token 1800000000000 =
        Some (<["iat" := issue_time (subject 7) 1700000000000]> (subject 7)).
Proof.
  apply (sign_verify_roundtrip (lib := ExampleLib.lib) (Some "s3cret")
           (subject 7) 1700000000000 1800000000000); reflexivity.
Defined.

(** X8: a signed payload with the claim [exp] verifies while the
    clock, in seconds, is before [exp], and is refused from then on. *)
Theorem token_expires `{!JwtLaws lib} JWT_SECRET (data : obj) x now later :
  numeric (data !! "iat") = true →
  data !! "exp" = Some (VNum x) → data !! "nbf" = None →
  ∃ token,
    signToken JWT_SECRET data now = Ok token
    ∧ verifyToken JWT_SECRET token later =
        if bool_decide (later `div` 1000 < x)
        then Some (<["iat" := issue_time data now]> data)
        else None.
Proof.
  intros Hi He Hn. eexists. split.
  - apply signToken_ok; [done|by rewrite He|by rewrite Hn].
  - rewrite verifyToken_signed by done. unfold check_nbf, check_exp.
    rewrite !lookup_insert_ne by done. rewrite He, Hn. simpl.
    case_bool_decide; case_bool_decide; try done; lia.
Qed.

Lemma token_expires_witness :
  ∃ token,
    signToken (lib := ExampleLib.lib) None short_lived 1700000000000 = Ok token
    ∧ verifyToken (lib := ExampleLib.lib) None token 1700000100000 =
        if bool_decide (1700000100000 `div` 1000 < 1700000100)
        then Some (<["iat" := issue_time short_lived 1700000000000]> short_lived)
        else None.
Proof.
  apply (token_expires (lib := ExampleLib.lib) None short_lived 1700000100
           1700000000000 1700000100000); reflexivity.
Defined.

(** X9: what [verifyToken] accepts is a token that decodes, names
    HS256, carries the HS256 signature of its segments under the
    secret, and is neither expired nor ahead of its [nbf]; the
    payload answered is the payload of the token. *)
Theorem verified_token_is_signed {lib : JwtLib} JWT_SECRET token now (decoded : obj) :
  verifyToken JWT_SECRET token now = Some decoded →
  token ≠ ""
  ∧ ∃ t, jws_decode token = Some t
         ∧ alg t = "HS256"
         ∧ signature t = mac "HS256" (secretKey JWT_SECRET) (signed t)
         ∧ claims t = decoded
         ∧ (∀ x, decoded !! "exp" = Some (VNum x) → now `div` 1000 < x)
         ∧ (∀ n, decoded !! "nbf" = Some (VNum n) → (n ≤ now `div` 1000)%Z).
Proof.
  unfold verifyToken, jwt_verify. intros H.
  case_bool_decide as Hne; [done|]. split; [done|].
  destruct (jws_decode token) as [t|]; [|done]. exists t.
  case_bool_decide; [done|].
  case_bool_decide as Halg; [|done]. apply list_elem_of_singleton in Halg.
  rewrite Halg in *.
  case_bool_decide as Hsig; [|done]. simpl in H.
  unfold check_nbf, check_exp in H.
  repeat split; try done.
  - destruct (claims t !! "nbf") as [[n|?]|]; [|done|];
      try (case_bool_decide; [done|]); simpl in H;
      destruct (claims t !! "exp") as [[y|?]|]; try done;
      try (case_bool_decide; [done|]); simpl in H; congruence.
  - intros x Hx.
    destruct (claims t !! "nbf") as [[n|?]|]; [|done|];
      try (case_bool_decide; [done|]); simpl in H;
      destruct (claims t !! "exp") as [[y|?]|] eqn:He; try done;
      try (case_bool_decide; [done|]); simpl in H;
      injection H as <-; rewrite He in Hx; try done;
      injection Hx as <-; lia.
  - intros n Hn.
    destruct (claims t !! "nbf") as [[m|?]|] eqn:Hm; [|done|];
      try (case_bool_decide; [done|]); simpl in H;
      destruct (claims t !! "exp") as [[y|?]|]; try done;
      try (case_bool_decide; [done|]); simpl in H;
      injection H as <-; rewrite Hm in Hn; try done;
      injection Hn as <-; lia.
Qed.

Lemma verified_token_is_signed_witness :
  john_token ≠ ""
  ∧ ∃ t, jws_decode (JwtLib := ExampleLib.lib) john_token = Some t
         ∧ alg t = "HS256"
         ∧ signature t =
             mac (JwtLib := ExampleLib.lib) "HS256" (secretKey None) (signed t)
         ∧ claims t = login_claims (Some (VNum 1)) 1700000000000
         ∧ (∀ x, login_claims (Some (VNum 1)) 1700000000000 !! "exp"
                   = Some (VNum x) → 1700000600000 `div` 1000 < x)
         ∧ (∀ n, login_claims (Some (VNum 1)) 1700000000000 !! "nbf"
                   = Some (VNum n) → (n ≤ 1700000600000 `div` 1000)%Z).
Proof.
  apply (verified_token_is_signed (lib := ExampleLib.lib) None john_token
           1700000600000 (login_claims (Some (VNum 1)) 1700000000000)).
  vm_compute. reflexivity.
Defined.

(** ** The middleware, from its result *)

(** X10: the middleware lets a request through only with a header
    that is not empty and verifies, and what it stores in [req.user]
    is what [verifyToken] answers for that header. *)
Theorem gate_lets_through_verified {lib : JwtLib} JWT_SECRET req (user : obj) :
  authenticateToken JWT_SECRET req = inr user →
  ∃ token, authorization req = Some token ∧ token ≠ ""
           ∧ verifyToken JWT_SECRET token (now req) = Some user.
Proof.
  unfold authenticateToken, truthy. intros H.
  destruct (authorization req) as [token|]; [|done]. simpl in H.
  case_bool_decide as Hne; [done|]. simpl in H. exists token.
  destruct (verifyToken JWT_SECRET token (now req)); [|done].
  by injection H as ->.
Qed.

Lemma gate_lets_through_verified_witness :
  ∃ token, authorization (notes_with (Some john_token)) = Some token
           ∧ token ≠ ""
           ∧ verifyToken (lib := ExampleLib.lib) None token
               (now (notes_with (Some john_token))) =
             Some (login_claims (Some (VNum 1)) 1700000000000).
Proof.
  apply (gate_lets_through_verified (lib := ExampleLib.lib) None
           (notes_with (Some john_token))
           (login_claims (Some (VNum 1)) 1700000000000)).
  vm_compute. reflexivity.
Defined.

(** X11: the token a login answers with opens every other route, at
    any time and on any state of the store: the route then runs for
    the subject whose [userId] is the [id] of the record found. *)
Theorem login_then_request `{!JwtLaws lib} JWT_SECRET login req d d' (user : obj) :
  User.findOne [("email", Eq <$> reqbody login !! "email");
                ("password", Eq <$> reqbody login !! "password")] d
    = Ok (Some user) →
  target req ≠ PostAuthLogin →
  ∃ token,
    post_auth_login JWT_SECRET login d =
      (Responded (Response 200 (Json {[ "token" := VStr token ]})), d)
    ∧ (authorization req = Some token →
       app JWT_SECRET req d' =
         routed (target req) req (login_claims (user !! "id") (now login)) d')
    ∧ login_claims (user !! "id") (now login) !! "userId" = user !! "id".
Proof.
  intros Hfind Hroute. unfold post_auth_login. rewrite Hfind, signToken_login.
  eexists. split; [reflexivity|]. split; [|apply login_claims_userId].
  intros Ha. unfold app, authenticateToken, truthy. rewrite Ha. simpl.
  rewrite bool_decide_eq_false_2 by apply token_nonempty. simpl.
  rewrite verifyToken_login by done. by destruct (target req).
Qed.

Lemma login_then_request_witness :
  ∃ token,
    post_auth_login (lib := ExampleLib.lib) None login_p1 store =
      (Responded (Response 200 (Json {[ "token" := VStr token ]})), store)
    ∧ (authorization (notes_with (Some john_token)) = Some token →
       app (lib := ExampleLib.lib) None (notes_with (Some john_token)) offline =
         routed (target (notes_with (Some john_token)))
           (notes_with (Some john_token))
           (login_claims (User.pick john !! "id") (now login_p1)) offline)
    ∧ login_claims (User.pick john !! "id") (now login_p1) !! "userId"
      = User.pick john !! "id".
Proof.
  apply (login_then_request (lib := ExampleLib.lib) None login_p1
           (notes_with (Some john_token)) store offline (User.pick john));
    [vm_compute; reflexivity | discriminate].
Defined.


(** ** Creating rows *)

Lemma create_values_lookup (reqbody user : obj) k :
  k ∈ User.attributes →
  User.pick (spread_set reqbody "userId" (user !! "userId")) !! k = reqbody !! k.
Proof.
  intros Hk. rewrite pick_lookup, bool_decide_eq_true_2 by done.
  assert (k ≠ "userId") as Hne.
  { intros ->. revert Hk. by apply (bool_decide_unpack _). }
  unfold spread_set. destruct (user !! "userId");
    [by rewrite lookup_insert_ne|by rewrite lookup_delete_ne].
Qed.

Lemma create_validates (reqbody user : obj) :
  Forall (λ k, is_Some (User.pick (spread_set reqbody "userId" (user !! "userId")) !! k))
    User.required
  ↔ is_Some (reqbody !! "username") ∧ is_Some (reqbody !! "email")
    ∧ is_Some (reqbody !! "password").
Proof.
  unfold User.required. rewrite !Forall_cons, Forall_nil.
  rewrite !create_values_lookup by (by apply (bool_decide_unpack _)). tauto.
Qed.

(** The values [create] stores for a body with the three texts the
    model requires, and the [id] of the body read as an integer when
    it has one. *)
Lemma create_stores (reqbody user : obj) now u e p (key : option Z) :
  reqbody !! "username" = Some (VStr u) → fits u →
  reqbody !! "email" = Some (VStr e) → fits e →
  reqbody !! "password" = Some (VStr p) → fits p →
  reqbody !! "createdAt" = None →
  match reqbody !! "id" with
  | Some v => ∃ n, store_integer v = Ok n ∧ key = Some n
  | None => key = None
  end →
  ∃ given,
    store_values User.attributes
      (<["updatedAt" := VNum now]>
         (<["createdAt" :=
              default (VNum now)
                (User.pick (spread_set reqbody "userId" (user !! "userId"))
                   !! "createdAt")]>
            (User.pick (spread_set reqbody "userId" (user !! "userId")))))
      = Ok given
    ∧ given !! "id" = VNum <$> key
    ∧ given !! "username" = Some (VStr u)
    ∧ given !! "email" = Some (VStr e)
    ∧ given !! "password" = Some (VStr p)
    ∧ given !! "createdAt" = Some (VNum now)
    ∧ given !! "updatedAt" = Some (VNum now).
Proof.
  intros Hu Hfu He Hfe Hp Hfp Hc Hid.
  set (vals := User.pick (spread_set reqbody "userId" (user !! "userId"))).
  assert (∀ k, k ∈ User.attributes → vals !! k = reqbody !! k) as Hvals
    by (intros k Hk; by apply create_values_lookup).
  assert (∀ k, bool_decide (k ∈ User.attributes) → k ∈ User.attributes) as Hdec
    by (intros k; apply bool_decide_unpack).
  rewrite (Hvals "createdAt"), Hc by by apply Hdec. simpl.
  set (M := <["updatedAt" := VNum now]> (<["createdAt" := VNum now]> vals)).
  assert (M !! "id" = reqbody !! "id") as Mid
    by (unfold M; rewrite !lookup_insert_ne by done; by apply Hvals, Hdec).
  assert (M !! "username" = Some (VStr u)) as Mu
    by (unfold M; rewrite !lookup_insert_ne by done; rewrite <- Hu; by apply Hvals, Hdec).
  assert (M !! "email" = Some (VStr e)) as Me
    by (unfold M; rewrite !lookup_insert_ne by done; rewrite <- He; by apply Hvals, Hdec).
  assert (M !! "password" = Some (VStr p)) as Mp
    by (unfold M; rewrite !lookup_insert_ne by done; rewrite <- Hp; by apply Hvals, Hdec).
  assert (M !! "createdAt" = Some (VNum now)) as Mc
    by (unfold M; rewrite lookup_insert_ne by done; apply lookup_insert_eq).
  assert (M !! "updatedAt" = Some (VNum now)) as Mt by apply lookup_insert_eq.
  destruct (store_values_ok User.attributes M) as [given Hg].
  { intros k v Hk Hv. unfold User.attributes in Hk.
    rewrite !elem_of_cons, elem_of_nil in Hk.
    destruct Hk as [->|[->|[->|[->|[->|[->|[]]]]]]].
    - rewrite Mid in Hv. rewrite Hv in Hid. destruct Hid as (n & Hn & _).
      exists (VNum n). unfold store_value.
      change (column_type "id") with Integer. cbv beta iota. by rewrite Hn.
    - rewrite Mu in Hv. injection Hv as <-. exists (VStr u).
      apply store_value_text; [by apply (bool_decide_unpack _)|done].
    - rewrite Me in Hv. injection Hv as <-. exists (VStr e).
      apply store_value_text; [by apply (bool_decide_unpack _)|done].
    - rewrite Mp in Hv. injection Hv as <-. exists (VStr p).
      apply store_value_text; [by apply (bool_decide_unpack _)|done].
    - rewrite Mc in Hv. injection Hv as <-. by exists (VNum now).
    - rewrite Mt in Hv. injection Hv as <-. by exists (VNum now). }
  exists given. split; [exact Hg|].
  assert (∀ k s, bool_decide (k ∈ User.required) → M !! k = Some (VStr s) → fits s →
                 given !! k = Some (VStr s)) as Htext.
  { intros k s Hk Hv Hs. apply bool_decide_unpack in Hk.
    assert (k ∈ User.attributes) as Hka.
    { unfold User.required in Hk. rewrite !elem_of_cons, elem_of_nil in Hk.
      destruct Hk as [->|[->|[->|[]]]]; by apply (bool_decide_unpack _). }
    destruct (store_values_Some _ _ _ k (VStr s) Hg Hka Hv) as (v' & Hv' & ->).
    rewrite store_value_text in Hv' by done. congruence. }
  split; [|split; [|split; [|split; [|split]]]].
  - destruct (reqbody !! "id") as [v|] eqn:Hv.
    + destruct Hid as (n & Hn & ->).
      destruct (store_values_Some _ _ _ "id" v Hg) as (v' & Hv' & ->);
        [by apply Hdec|done|].
      unfold store_value in Hv'. change (column_type "id") with Integer in Hv'.
      cbv beta iota in Hv'. rewrite Hn in Hv'. simpl in Hv'.
      by injection Hv' as <-.
    + subst key. apply (store_values_None _ _ _ _ Hg). by right.
  - by apply Htext.
  - by apply Htext.
  - by apply Htext.
  - destruct (store_values_Some _ _ _ "createdAt" _ Hg (Hdec "createdAt" I) Mc)
      as (v' & Hv' & ->). by injection Hv' as <-.
  - destruct (store_values_Some _ _ _ "updatedAt" _ Hg (Hdec "updatedAt" I) Mt)
      as (v' & Hv' & ->). by injection Hv' as <-.
Qed.

(** X12: a body that has [username], [email] and [password] as texts
    that fit their columns, and no [id], [createdAt] or [updatedAt],
    creates a row under the next id of the sequence, which then
    advances by one: 201 with the row, which has these three texts,
    the time as [createdAt] and [updatedAt], and no member that is
    not an attribute of the model. *)
Theorem create_assigns_next_id req (user : obj) d u e p :
  fault d = None →
  reqbody req !! "username" = Some (VStr u) → fits u →
  reqbody req !! "email" = Some (VStr e) → fits e →
  reqbody req !! "password" = Some (VStr p) → fits p →
  reqbody req !! "id" = None →
  reqbody req !! "createdAt" = None → reqbody req !! "updatedAt" = None →
  Some (VNum (next_id d)) ∉ User.ids (rows d) →
  ∃ note,
    post_notes req user d =
      (Responded (Response 201 (Json note)),
       Db (rows d ++ [note]) (next_id d + 1) None)
    ∧ note !! "id" = Some (VNum (next_id d))
    ∧ note !! "createdAt" = Some (VNum (now req))
    ∧ note !! "updatedAt" = Some (VNum (now req))
    ∧ (∀ k, k ∈ User.required → note !! k = reqbody req !! k)
    ∧ (∀ k, k ∉ User.attributes → note !! k = None).
Proof.
  intros Hf Hu Hfu He Hfe Hp Hfp Hid Hc _ Hfresh.
  destruct (create_stores (reqbody req) user (now req) u e p None)
    as (given & Hg & Gid & Gu & Ge & Gp & Gc & Gt); try done.
  { by rewrite Hid. }
  destruct (User.create (spread_set (reqbody req) "userId" (user !! "userId"))
              (now req) d) as [res d'] eqn:Hcr.
  pose proof Hcr as Hcr'. unfold User.create in Hcr'.
  rewrite bool_decide_eq_true_2 in Hcr'
    by (apply create_validates; rewrite Hu, He, Hp; eauto).
  rewrite Hf, Hg, Gid in Hcr'. simpl in Hcr'.
  rewrite bool_decide_eq_false_2 in Hcr' by done.
  injection Hcr' as <- <-. eexists. unfold post_notes. rewrite Hcr.
  split; [reflexivity|]. split; [|split; [|split; [|split]]].
  - apply lookup_insert_eq.
  - by rewrite lookup_insert_ne.
  - by rewrite lookup_insert_ne.
  - intros k Hk. unfold User.required in Hk.
    rewrite !elem_of_cons, elem_of_nil in Hk.
    destruct Hk as [->|[->|[->|[]]]]; rewrite lookup_insert_ne by done; congruence.
  - intros k Hk. by apply (create_row_attributes _ _ _ _ _ k Hcr).
Qed.

Lemma create_assigns_next_id_witness :
  ∃ note,
    post_notes (request_to PostNotes carol_body) (subject 1) store =
      (Responded (Response 201 (Json note)),
       Db (rows store ++ [note]) (next_id store + 1) None)
    ∧ note !! "id" = Some (VNum (next_id store))
    ∧ note !! "createdAt" = Some (VNum (now (request_to PostNotes carol_body)))
    ∧ note !! "updatedAt" = Some (VNum (now (request_to PostNotes carol_body)))
    ∧ (∀ k, k ∈ User.required →
         note !! k = reqbody (request_to PostNotes carol_body) !! k)
    ∧ (∀ k, k ∉ User.attributes → note !! k = None).
Proof.
  refine (create_assigns_next_id (request_to PostNotes carol_body) (subject 1)
            store "carol" "c@x.com" "p3" _ _ _ _ _ _ _ _ _ _ _);
    first [ vm_compute; reflexivity
          | apply (bool_decide_unpack _); vm_compute; exact I ].
Defined.

(** X13: a body that lacks [username], [email] or [password] is
    refused before the table is touched: 500, the store and its
    sequence as before. *)
Theorem create_requires_members req (user : obj) d k :
  k ∈ User.required → reqbody req !! k = None →
  post_notes req user d =
    (Responded (json_error 500 "Failed to create a new note"), d).
Proof.
  intros Hk Hnone. unfold post_notes, User.create.
  rewrite bool_decide_eq_false_2; [done|].
  rewrite create_validates. intros (Hu & He & Hp).
  unfold User.required in Hk. rewrite !elem_of_cons, elem_of_nil in Hk.
  destruct Hk as [->|[->|[->|[]]]]; rewrite Hnone in *;
    by match goal with H : is_Some None |- _ => destruct H end.
Qed.

Lemma create_requires_members_witness :
  post_notes (request_to PostNotes readme_note) (subject 1) store =
    (Responded (json_error 500 "Failed to create a new note"), store).
Proof.
  apply (create_requires_members (request_to PostNotes readme_note)
           (subject 1) store "email");
    [apply (bool_decide_unpack _); vm_compute; exact I | reflexivity].
Defined.

(** X14: the [id] of the body, when it has one that reads as an
    INTEGER (a number or its text), is the key of the row created,
    as a number, and the sequence stays; when a row has that key
    already the answer is 500 and the store is as before.  The
    other members are as in X12. *)
Theorem create_with_id req (user : obj) d v n u e p :
  fault d = None →
  reqbody req !! "username" = Some (VStr u) → fits u →
  reqbody req !! "email" = Some (VStr e) → fits e →
  reqbody req !! "password" = Some (VStr p) → fits p →
  reqbody req !! "id" = Some v → store_integer v = Ok n →
  reqbody req !! "createdAt" = None → reqbody req !! "updatedAt" = None →
  (Some (VNum n) ∈ User.ids (rows d) →
   post_notes req user d =
     (Responded (json_error 500 "Failed to create a new note"), d))
  ∧ (Some (VNum n) ∉ User.ids (rows d) →
     ∃ note,
       post_notes req user d =
         (Responded (Response 201 (Json note)),
          Db (rows d ++ [note]) (next_id d) None)
       ∧ note !! "id" = Some (VNum n)
       ∧ (∀ k, k ∈ User.required → note !! k = reqbody req !! k)).
Proof.
  intros Hf Hu Hfu He Hfe Hp Hfp Hid Hn Hc _.
  destruct (create_stores (reqbody req) user (now req) u e p (Some n))
    as (given & Hg & Gid & Gu & Ge & Gp & Gc & Gt); try done.
  { rewrite Hid. eauto. }
  unfold post_notes, User.create.
  rewrite bool_decide_eq_true_2
    by (apply create_validates; rewrite Hu, He, Hp; eauto).
  rewrite Hf, Hg, Gid. simpl. split; intros Hin.
  - rewrite bool_decide_eq_true_2 by done. by rewrite (db_eta d Hf).
  - rewrite bool_decide_eq_false_2 by done. eexists.
    split; [reflexivity|]. split; [apply lookup_insert_eq|].
    intros k Hk. unfold User.required in Hk.
    rewrite !elem_of_cons, elem_of_nil in Hk.
    destruct Hk as [->|[->|[->|[]]]]; rewrite lookup_insert_ne by done; congruence.
Qed.

Lemma create_with_id_witness :
  post_notes (request_to PostNotes (<["id" := VStr "5"]> carol_body))
    (subject 1) store =
    (Responded (json_error 500 "Failed to create a new note"), store)
  ∧ ∃ note,
      post_notes (request_to PostNotes (<["id" := VNum 40]> carol_body))
        (subject 1) store =
        (Responded (Response 201 (Json note)),
         Db (rows store ++ [note]) (next_id store) None)
      ∧ note !! "id" = Some (VNum 40)
      ∧ (∀ k, k ∈ User.required →
           note !! k
           = reqbody (request_to PostNotes (<["id" := VNum 40]> carol_body)) !! k).
Proof.
  split.
  - refine (proj1 (create_with_id
                     (request_to PostNotes (<["id" := VStr "5"]> carol_body))
                     (subject 1) store (VStr "5") 5 "carol" "c@x.com" "p3"
                     _ _ _ _ _ _ _ _ _ _ _) _);
      first [ vm_compute; reflexivity
            | apply (bool_decide_unpack _); vm_compute; exact I ].
  - refine (proj2 (create_with_id
                     (request_to PostNotes (<["id" := VNum 40]> carol_body))
                     (subject 1) store (VNum 40) 40 "carol" "c@x.com" "p3"
                     _ _ _ _ _ _ _ _ _ _ _) _);
      first [ vm_compute; reflexivity
            | apply (bool_decide_unpack _); vm_compute; exact I ].
Defined.

(** ** From a row created to a login *)

Lemma chars_unchars l : chars (unchars l) = l.
Proof. induction l as [|c l IH]; simpl; [done|by rewrite IH]. Qed.

Lemma split_chars_app n l a b : split_chars n l = (a, b) → l = (a ++ b)%list.
Proof.
  revert n a b. induction l as [|c l IH]; intros n a b H; simpl in H.
  - by injection H as <- <-.
  - destruct (continuation c).
    + destruct (split_chars n l) as [a' b'] eqn:E. injection H as <- <-.
      simpl. f_equal. by apply (IH n).
    + destruct n as [|n']; [by injection H as <- <-|].
      destruct (split_chars n' l) as [a' b'] eqn:E. injection H as <- <-.
      simpl. f_equal. by apply (IH n').
Qed.

(** A text that is stored has no NUL character. *)
Lemma store_text_clean n s s' : store_text n s = Ok s' → clean s'.
Proof.
  unfold store_text, clean. case_bool_decide as Hc; [done|].
  case_bool_decide; [by intros [= <-]|].
  destruct (split_chars n (chars s)) as [a b] eqn:E.
  destruct (forallb _ b); [|done]. intros [= <-].
  rewrite chars_unchars. intros Ha. apply Hc.
  rewrite (split_chars_app _ _ _ _ E). apply elem_of_app. by left.
Qed.

Lemma store_value_clean k v v' :
  k ∈ User.required → store_value k v = Ok v' → ∃ s, v' = VStr s ∧ clean s.
Proof.
  intros Hk. unfold User.required in Hk.
  rewrite !elem_of_cons, elem_of_nil in Hk.
  destruct Hk as [->|[->|[->|[]]]]; unfold store_value;
    match goal with
    | |- context [column_type ?k] => change (column_type k) with (Varchar 128)
    end; cbv beta iota;
    destruct (store_text 128 _) as [s|] eqn:E; try done; simpl;
    intros [= <-]; exists s; (split; [done|by apply store_text_clean in E]).
Qed.

(** The login for a record found answers with a token that verifies
    to the [id] of the record. *)
Lemma issued_token_found `{!JwtLaws lib} JWT_SECRET req d (user : obj) later id :
  User.findOne [("email", Eq <$> reqbody req !! "email");
                ("password", Eq <$> reqbody req !! "password")] d
    = Ok (Some user) →
  user !! "id" = id →
  ∃ token decoded,
    post_auth_login JWT_SECRET req d =
      (Responded (Response 200 (Json {[ "token" := VStr token ]})), d)
    ∧ verifyToken JWT_SECRET token later = Some decoded
    ∧ decoded !! "userId" = id.
Proof.
  intros Hfind <-. unfold post_auth_login. rewrite Hfind, signToken_login.
  eexists _, _. split; [reflexivity|]. split.
  - apply verifyToken_login; done.
  - apply login_claims_userId.
Qed.

(** X15: a row created through the notes route is a credential: the
    login with its [email] and [password], as the row answered has
    them (texts, as they are stored), when no older row has both,
    answers with a token that verifies to the [id] of the new row. *)
Theorem created_row_can_log_in `{!JwtLaws lib} JWT_SECRET req login (user : obj)
    d d' (note : obj) later :
  post_notes req user d = (Responded (Response 201 (Json note)), d') →
  reqbody login !! "email" = note !! "email" →
  reqbody login !! "password" = note !! "password" →
  (∀ r, r ∈ rows d → r !! "email" = note !! "email" →
        r !! "password" ≠ note !! "password") →
  ∃ token decoded,
    post_auth_login JWT_SECRET login d' =
      (Responded (Response 200 (Json {[ "token" := VStr token ]})), d')
    ∧ verifyToken JWT_SECRET token later = Some decoded
    ∧ decoded !! "userId" = note !! "id".
Proof.
  intros Hpost Hle Hlp Hold. unfold post_notes in Hpost.
  destruct (User.create _ (now req) d) as [[row|e] d1] eqn:Hc; [|done].
  injection Hpost as -> ->.
  destruct (create_inserts _ _ _ _ _ Hc)
    as (given & Hg & Hrow & Hrows & _ & Hf' & Hf & Hfresh & Hreq).
  assert (∀ k, k ∈ User.required → ∃ s, note !! k = Some (VStr s) ∧ clean s)
    as Htext.
  { intros k Hk.
    assert (k ∈ User.attributes ∧ k ≠ "id" ∧ k ≠ "createdAt" ∧ k ≠ "updatedAt")
      as (Hka & ? & ? & ?).
    { unfold User.required in Hk. rewrite !elem_of_cons, elem_of_nil in Hk.
      destruct Hk as [->|[->|[->|[]]]]; repeat split; try done;
        by apply (bool_decide_unpack _). }
    rewrite Forall_forall in Hreq. destruct (Hreq k Hk) as [v Hv].
    destruct (store_values_Some _ _ _ k v Hg Hka) as (v' & Hv' & Hgk).
    { by rewrite !lookup_insert_ne. }
    destruct (store_value_clean k v v' Hk Hv') as (s & -> & Hs).
    exists s. split; [|done]. rewrite Hrow. by rewrite lookup_insert_ne. }
  destruct (Htext "email") as (e & He & Hce);
    [by apply (bool_decide_unpack _)|].
  destruct (Htext "password") as (p & Hp & Hcp);
    [by apply (bool_decide_unpack _)|].
  apply issued_token_found with (user := User.pick note).
  - rewrite Hle, Hlp, He, Hp. simpl.
    destruct (findOne_found
                [("email", Some (Eq (VStr e))); ("password", Some (Eq (VStr p)))]
                [("email", Eq (VStr e)); ("password", Eq (VStr p))] d' note)
      as (r & Hr & Hm & ->);
      [by apply check_where_credential|done|
      |by apply row_matches_credential|].
    { rewrite Hrows. apply elem_of_app. right. by apply list_elem_of_singleton. }
    apply row_matches_credential in Hm as [Hre Hrp].
    rewrite Hrows in Hr. apply elem_of_app in Hr as [Hr|Hr].
    + destruct (Hold r Hr); congruence.
    + by apply list_elem_of_singleton in Hr as ->.
  - by rewrite pick_lookup.
Qed.

Lemma created_row_can_log_in_witness :
  ∃ token decoded,
    post_auth_login (lib := ExampleLib.lib) None login_p3
      (Db [john; bob; note5; carol_row] 7 None) =
      (Responded (Response 200 (Json {[ "token" := VStr token ]})),
       Db [john; bob; note5; carol_row] 7 None)
    ∧ verifyToken (lib := ExampleLib.lib) None token 1800000000000 = Some decoded
    ∧ decoded !! "userId" = carol_row !! "id".
Proof.
  refine (created_row_can_log_in (lib := ExampleLib.lib) None
            (request_to PostNotes carol_body) login_p3 (subject 1) store
            (Db [john; bob; note5; carol_row] 7 None) carol_row 1800000000000
            _ _ _ _).
  - vm_compute. reflexivity.
  - vm_compute. reflexivity.
  - vm_compute. reflexivity.
  - intros r Hr. apply (bool_decide_unpack _).
    revert r Hr. apply Forall_forall. apply (bool_decide_unpack _).
    vm_compute. exact I.
Defined.

(** ** Sharing, when something is missing *)

(** X16: a share request for an id, read as an INTEGER, under which
    the subject owns no row is answered 404 before the user to share
    with is looked up; when the row is there and no row has the id
    that [sharedWithUserId] reads as, it is answered 404 for that
    user; when the body names no such id, 500.  The store is as
    before. *)
Theorem share_not_found noteId n req (user : obj) s d :
  fault d = None → user !! "userId" = Some s →
  int4_of_string noteId = Some n →
  ((∀ r, r ∈ rows d →
      ¬ (r !! "id" = Some (VNum n) ∧ r !! "userId" = Some s)) →
   post_note_share noteId req user d =
     (Responded
        (json_error 404
           "Note not found or does not belong to the authenticated user"), d))
  ∧ (∀ N, N ∈ rows d → N !! "id" = Some (VNum n) → N !! "userId" = Some s →
       (∀ t m, reqbody req !! "sharedWithUserId" = Some t →
          to_integer t = Ok m →
          (∀ r, r ∈ rows d → r !! "id" ≠ Some (VNum m)) →
          post_note_share noteId req user d =
            (Responded (json_error 404 "User to share with not found"), d))
       ∧ (reqbody req !! "sharedWithUserId" = None →
          post_note_share noteId req user d =
            (Responded (json_error 500 "Failed to share the note"), d))).
Proof.
  intros Hf Hs Hn. split.
  - intros Hno. unfold post_note_share.
    rewrite (findOne_none _ [("id", Eq (VNum n)); ("userId", Eq s)]);
      [done | by apply check_where_owned | done |].
    intros r Hr Hm. apply (Hno r Hr). by apply row_matches_owned.
  - intros N HN Hid Hown.
    destruct (findOne_found (owned noteId user)
                [("id", Eq (VNum n)); ("userId", Eq s)] d N)
      as (n' & _ & _ & Hfound);
      [by apply check_where_owned | done | done | by apply row_matches_owned |].
    split.
    + intros t m Ht Hm Hnone. unfold post_note_share. rewrite Hfound, Ht. simpl.
      rewrite (findOne_none _ [("id", Eq (VNum m))]);
        [done | by apply check_where_id | done |].
      intros r Hr Hmatch. apply row_matches_id in Hmatch. by apply (Hnone r).
    + intros Hnone. unfold post_note_share. by rewrite Hfound, Hnone.
Qed.

Lemma share_not_found_witness :
  post_note_share "5" share5 (subject 1) store =
    (Responded
       (json_error 404
          "Note not found or does not belong to the authenticated user"), store)
  ∧ post_note_share "5"
      (request_to (PostNoteShare "5") {[ "sharedWithUserId" := VStr "9" ]})
      (subject 2) store =
    (Responded (json_error 404 "User to share with not found"), store).
Proof.
  split.
  - refine (proj1 (share_not_found "5" 5 share5 (subject 1) (VNum 1) store
                     _ _ _) _);
      [vm_compute; reflexivity..|].
    apply Forall_forall. apply (bool_decide_unpack _). vm_compute. exact I.
  - refine (proj1 (proj2 (share_not_found "5" 5
                     (request_to (PostNoteShare "5")
                        {[ "sharedWithUserId" := VStr "9" ]})
                     (subject 2) (VNum 2) store _ _ _) note5 _ _ _)
                  (VStr "9") 9 _ _ _);
      first [ vm_compute; reflexivity
            | apply (bool_decide_unpack _); vm_compute; exact I
            | idtac ].
    apply Forall_forall. apply (bool_decide_unpack _). vm_compute. exact I.
Defined.

(** ** Searching without a query *)

(** X17: a search request without the parameter [q] searches for
    the text "undefined": it answers with the rows whose username
    contains it. *)
Theorem search_without_query req (user : obj) d :
  fault d = None → q req = None →
  get_search req user d =
    (Responded (Response 200 (JsonList
       (public <$> (User.pick <$>
          filter (λ r, named "undefined" r) (rows d))))), d).
Proof.
  intros Hf Hq. unfold get_search, User.findAll. rewrite Hq.
  change (check_where [("username", Some (Like (search_pattern None)))])
    with (Ok (A := list (string * cond))
            [("username", Like (search_pattern (Some "undefined")))]).
  simpl. rewrite Hf.
  rewrite hits_username. do 6 f_equal. apply list_filter_iff. intros r.
  rewrite search_plain; [done|]. repeat constructor; discriminate.
Qed.

Lemma search_without_query_witness :
  get_search (Request GetSearch (Some john_token) ∅ None 1700000600000)
    (subject 1) store =
    (Responded (Response 200 (JsonList
       (public <$> (User.pick <$>
          filter (λ r, named "undefined" r) (rows store))))), store).
Proof.
  refine (search_without_query
            (Request GetSearch (Some john_token) ∅ None 1700000600000)
            (subject 1) store _ _); vm_compute; reflexivity.
Defined.

(** ** What the routes answer and what they leave alone *)

(** X18: the status of every answer: the login answers 200, 401 or
    500; the list 200 or 500; get 200, 404 or 500; create 201 or
    500; update and delete 204, 404 or 500; share 404 or 500, never
    200; and the search, when it answers, 200. *)
Theorem status_codes {lib : JwtLib} JWT_SECRET noteId req (user : obj) d res :
  ((post_auth_login JWT_SECRET req d).1 = Responded res →
     status res = 200 ∨ status res = 401 ∨ status res = 500)
  ∧ ((get_notes req user d).1 = Responded res →
       status res = 200 ∨ status res = 500)
  ∧ ((get_note noteId req user d).1 = Responded res →
       status res = 200 ∨ status res = 404 ∨ status res = 500)
  ∧ ((post_notes req user d).1 = Responded res →
       status res = 201 ∨ status res = 500)
  ∧ ((put_note noteId req user d).1 = Responded res →
       status res = 204 ∨ status res = 404 ∨ status res = 500)
  ∧ ((delete_note noteId req user d).1 = Responded res →
       status res = 204 ∨ status res = 404 ∨ status res = 500)
  ∧ ((post_note_share noteId req user d).1 = Responded res →
       status res = 404 ∨ status res = 500)
  ∧ ((get_search req user d).1 = Responded res → status res = 200).
Proof.
  repeat split.
  - unfold post_auth_login. destruct (User.findOne _ d) as [[u|]|];
      [destruct (signToken _ _ _)|..]; simpl; intros [= <-]; simpl; tauto.
  - unfold get_notes. destruct (User.findAll _ d);
      simpl; intros [= <-]; simpl; tauto.
  - unfold get_note. destruct (User.findOne _ d) as [[u|]|];
      simpl; intros [= <-]; simpl; tauto.
  - unfold post_notes. destruct (User.create _ _ d) as [[u|] d'];
      simpl; intros [= <-]; simpl; tauto.
  - unfold put_note. destruct (User.update _ _ _ d) as [[n|] d'];
      [case_bool_decide|]; simpl; intros [= <-]; simpl; tauto.
  - unfold delete_note. destruct (User.destroy _ d) as [[n|] d'];
      [case_bool_decide|]; simpl; intros [= <-]; simpl; tauto.
  - unfold post_note_share, User.addSharedUser.
    destruct (User.findOne (owned noteId user) d) as [[n|]|];
      [destruct (User.findOne _ d) as [[u|]|]|..];
      simpl; intros [= <-]; simpl; tauto.
  - unfold get_search. destruct (User.findAll _ d);
      simpl; intros [= <-]; simpl; tauto.
Qed.

(** X19: only create, update and delete change the store: a request
    to any other route, authenticated or not, leaves it as it is. *)
Theorem read_routes_keep_store {lib : JwtLib} JWT_SECRET req d :
  target req ≠ PostNotes →
  (∀ id, target req ≠ PutNote id) → (∀ id, target req ≠ DeleteNote id) →
  (app JWT_SECRET req d).2 = d.
Proof.
  intros Hc Hu Hd. unfold app.
  assert ((post_auth_login JWT_SECRET req d).2 = d) as Hlogin.
  { unfold post_auth_login. destruct (User.findOne _ d) as [[u|]|]; [|done..].
    by destruct (signToken _ _ _). }
  destruct (target req) as [| |id| |id|id|id| |] eqn:Hr; [done|..];
    (destruct (authenticateToken JWT_SECRET req) as [res|user]; [done|]);
    simpl.
  - unfold get_notes. by destruct (User.findAll _ d).
  - unfold get_note. by destruct (User.findOne _ d) as [[u|]|].
  - done.
  - by destruct (Hu id).
  - by destruct (Hd id).
  - apply share_never_succeeds.
  - unfold get_search. by destruct (User.findAll _ d).
  - done.
Qed.

Lemma read_routes_keep_store_witness :
  (app (lib := ExampleLib.lib) None (search_for "jo") store).2 = store.
Proof.
  apply (read_routes_keep_store (lib := ExampleLib.lib) None
           (search_for "jo") store); discriminate.
Defined.

(** ** Columns the model does not know *)

(** A request to a route that only reads returns the store it got. *)
Lemma read_store_kept {lib : JwtLib} JWT_SECRET req d :
  match target req with
  | PostNotes | PutNote _ | DeleteNote _ => False
  | _ => True
  end →
  (app JWT_SECRET req d).2 = d.
Proof.
  intros Hr. unfold app.
  assert ((post_auth_login JWT_SECRET req d).2 = d) as Hlogin.
  { unfold post_auth_login. destruct (User.findOne _ d) as [[u|]|]; [|done..].
    by destruct (signToken _ _ _). }
  destruct (target req) as [| |id| |id|id|id| |]; [done|..];
    (destruct (authenticateToken JWT_SECRET req) as [res|user]; [done|]);
    simpl; try done.
  - unfold get_notes. by destruct (User.findAll _ d).
  - unfold get_note. by destruct (User.findOne _ d) as [[u|]|].
  - apply share_never_succeeds.
  - unfold get_search. by destruct (User.findAll _ d).
Qed.

Lemma create_columns values now d k (r' : obj) :
  k ∉ User.attributes → r' ∈ rows (User.create values now d).2 →
  r' !! k = None ∨ ∃ r, r ∈ rows d ∧ r' !! k = r !! k.
Proof.
  intros Hk. destruct (User.create values now d) as [[row|e] d'] eqn:Hc.
  - destruct (create_inserts _ _ _ _ _ Hc) as (given & _ & _ & Hrows & _).
    simpl. rewrite Hrows.
    intros [Hin|Hin]%elem_of_app; [right; eauto|left].
    apply list_elem_of_singleton in Hin as ->.
    by apply (create_row_attributes _ _ _ _ _ k Hc).
  - simpl. assert (rows d' = rows d) as ->; [|right; eauto].
    unfold User.create in Hc. case_bool_decide; [|by injection Hc as _ <-].
    destruct (fault d); [by injection Hc as _ <-|].
    destruct (store_values _ _); [|by injection Hc as _ <-].
    case_bool_decide; [by injection Hc as _ <-|done].
Qed.

Lemma update_columns values w now d k (r' : obj) :
  k ∉ User.attributes → r' ∈ rows (User.update values w now d).2 →
  ∃ r, r ∈ rows d ∧ r' !! k = r !! k.
Proof.
  intros Hk. unfold User.update.
  case_bool_decide; [eauto|].
  destruct (check_where w) as [w'|]; [|eauto]. destruct (fault d); [eauto|].
  destruct (store_values _ _) as [vals|] eqn:Hv; [|eauto].
  case_bool_decide; [eauto|]. simpl.
  intros [Hin|Hin]%elem_of_app.
  - apply list_elem_of_filter in Hin as [_ ?]. eauto.
  - apply list_elem_of_fmap in Hin as (r & -> & Hr).
    apply hits_elem in Hr as [Hr _]. exists r. split; [done|].
    apply lookup_union_r. apply (store_values_None _ _ _ _ Hv). by left.
Qed.

Lemma destroy_columns w d (r' : obj) :
  r' ∈ rows (User.destroy w d).2 → r' ∈ rows d.
Proof.
  unfold User.destroy.
  destruct (check_where w) as [w'|]; [|done]. destruct (fault d); [done|].
  simpl. intros Hin. by apply list_elem_of_filter in Hin as [_ ?].
Qed.

(** X20: no request writes a column that is not an attribute of the
    model: in every row of the store after a request such a column
    is NULL or has the value it had in a row before.  So a table in
    which no row has a [userId] (or a [title], or a [content]) never
    gets one. *)
Theorem foreign_columns_never_written {lib : JwtLib} JWT_SECRET req d k :
  k ∉ User.attributes →
  (∀ r', r' ∈ rows (app JWT_SECRET req d).2 →
     r' !! k = None ∨ ∃ r, r ∈ rows d ∧ r' !! k = r !! k)
  ∧ ((∀ r, r ∈ rows d → r !! k = None) →
     ∀ r', r' ∈ rows (app JWT_SECRET req d).2 → r' !! k = None).
Proof.
  intros Hk.
  assert (∀ r', r' ∈ rows (app JWT_SECRET req d).2 →
            r' !! k = None ∨ ∃ r, r ∈ rows d ∧ r' !! k = r !! k) as Hmain.
  { intros r'. destruct (target req) as [| |id| |id|id|id| |] eqn:Hr.
    1-3, 7-9: rewrite read_store_kept by (by rewrite Hr); intros ?; right; eauto.
    - unfold app. rewrite Hr.
      destruct (authenticateToken JWT_SECRET req) as [res|user];
        [intros ?; right; eauto|].
      simpl. unfold post_notes.
      pose proof (create_columns
                    (spread_set (reqbody req) "userId" (user !! "userId"))
                    (now req) d k r' Hk) as H.
      destruct (User.create _ _ d) as [[u|] d']; simpl in *; exact H.
    - unfold app. rewrite Hr.
      destruct (authenticateToken JWT_SECRET req) as [res|user];
        [intros ?; right; eauto|].
      simpl. unfold put_note.
      pose proof (update_columns (reqbody req) (owned id user) (now req) d k r' Hk)
        as H.
      destruct (User.update _ _ _ d) as [[n|] d'];
        [case_bool_decide|]; simpl in *; intros Hin; right; by apply H.
    - unfold app. rewrite Hr.
      destruct (authenticateToken JWT_SECRET req) as [res|user];
        [intros ?; right; eauto|].
      simpl. unfold delete_note.
      pose proof (destroy_columns (owned id user) d r') as H.
      destruct (User.destroy _ d) as [[n|] d'];
        [case_bool_decide|]; simpl in *; intros Hin; right; eauto. }
  split; [exact Hmain|].
  intros Hnone r' Hr'. destruct (Hmain r' Hr') as [?|(r & Hr & ->)]; [done|].
  by apply Hnone.
Qed.

Lemma foreign_columns_never_written_witness :
  Forall (λ r' : obj, r' !! "userId" = None)
    (rows (app (lib := ExampleLib.lib) None
             (Request PostNotes (Some john_token) full_note None 1700000600000)
             (Db [john; bob] 3 None)).2).
Proof.
  apply Forall_forall.
  refine (proj2 (foreign_columns_never_written (lib := ExampleLib.lib) None
              (Request PostNotes (Some john_token) full_note None 1700000600000)
              (Db [john; bob] 3 None) "userId" _) _).
  - apply (bool_decide_unpack _). vm_compute. exact I.
  - apply Forall_forall. apply (bool_decide_unpack _). vm_compute. exact I.
Defined.

(** ** Witnesses of the failure and key lemmas *)

Lemma status_codes_witness :
  status (json_error 500 "Failed to share the note") = 404
  ∨ status (json_error 500 "Failed to share the note") = 500.
Proof.
  refine (proj1 (proj2 (proj2 (proj2 (proj2 (proj2 (proj2
            (status_codes (lib := ExampleLib.lib) None "5" share5 (subject 2)
               store (json_error 500 "Failed to share the note")))))))) _).
  vm_compute. reflexivity.
Defined.

Lemma storage_failure_is_500_witness :
  post_auth_login (lib := ExampleLib.lib) None put5 offline =
    (Responded (json_error 500 "Failed to log in"), offline)
  ∧ get_notes put5 (subject 2) offline =
    (Responded (json_error 500 "Failed to retrieve notes"), offline)
  ∧ get_note "5" put5 (subject 2) offline =
    (Responded (json_error 500 "Failed to retrieve note"), offline)
  ∧ post_notes put5 (subject 2) offline =
    (Responded (json_error 500 "Failed to create a new note"), offline)
  ∧ (delete "updatedAt" (User.pick (reqbody put5)) ≠ ∅ →
     put_note "5" put5 (subject 2) offline =
       (Responded (json_error 500 "Failed to update note"), offline))
  ∧ delete_note "5" put5 (subject 2) offline =
    (Responded (json_error 500 "Failed to delete note"), offline)
  ∧ post_note_share "5" put5 (subject 2) offline =
    (Responded (json_error 500 "Failed to share the note"), offline).
Proof.
  refine (storage_failure_is_500 (lib := ExampleLib.lib) None "5" put5
            (subject 2) offline "connect ECONNREFUSED 127.0.0.1:5432" _).
  vm_compute. reflexivity.
Defined.

Lemma app_keeps_pk_witness :
  pk_ok (app (lib := ExampleLib.lib) None
           (Request PostNotes (Some john_token) carol_body None 1700000600000)
           store).2.
Proof.
  refine (app_keeps_pk (lib := ExampleLib.lib) None
            (Request PostNotes (Some john_token) carol_body None 1700000600000)
            store _).
  exact store_pk_ok.
Defined.

(** ** Searching for a plain text *)

Lemma check_where_search query :
  clean query →
  check_where [("username", Some (Like (search_pattern (Some query))))] =
    Ok [("username", Like (search_pattern (Some query)))].
Proof.
  intros Hc. simpl.
  change (read_cond "username" (Like (search_pattern (Some query))))
    with (Ok (A := cond) (Like (sql_text (search_pattern (Some query))))).
  simpl. rewrite sql_text_clean; [done|].
  unfold clean. rewrite chars_search_pattern.
  rewrite elem_of_cons, elem_of_app, list_elem_of_singleton.
  intros [?|[?|?]]; done.
Qed.

(** X24: a search for a text that has none of the characters LIKE
    reads as a pattern (and no NUL) answers 200 with the rows whose
    username contains the text, each as its [id], [username] and
    [email] and nothing else: no element has a [password]. *)
Theorem search_plain_query req (user : obj) d query :
  fault d = None → q req = Some query → plain query → clean query →
  get_search req user d =
    (Responded (Response 200 (JsonList
       (public <$> (User.pick <$>
          filter (λ r, named query r) (rows d))))), d)
  ∧ ∀ u, u ∈ public <$> (User.pick <$> filter (λ r, named query r) (rows d)) →
      u !! "password" = None
      ∧ ∀ k, is_Some (u !! k) → k ∈ ["id"; "username"; "email"].
Proof.
  intros Hf Hq Hp Hc. split.
  - unfold get_search, User.findAll. rewrite Hq, (check_where_search _ Hc).
    simpl. rewrite Hf. rewrite hits_username. do 6 f_equal.
    apply list_filter_iff. intros r. by rewrite search_plain.
  - intros u (r & -> & _)%list_elem_of_fmap. split.
    + by rewrite public_lookup.
    + intros k. rewrite public_lookup. case_bool_decide; [done|].
      by intros [? ?].
Qed.

Lemma search_plain_query_witness :
  get_search (search_for "jo") (subject 1) store =
    (Responded (Response 200 (JsonList
       (public <$> (User.pick <$>
          filter (λ r, named "jo" r) (rows store))))), store)
  ∧ ∀ u, u ∈ public <$> (User.pick <$> filter (λ r, named "jo" r) (rows store)) →
      u !! "password" = None
      ∧ ∀ k, is_Some (u !! k) → k ∈ ["id"; "username"; "email"].
Proof.
  refine (search_plain_query (search_for "jo") (subject 1) store "jo" _ _ _ _);
    first [ vm_compute; reflexivity
          | apply (bool_decide_unpack _); vm_compute; exact I ].
Defined.
